(** * The space sync gateway (packages/backend/server/src/core/sync/gateway.ts)

    A shallow embedding of [SpaceSyncGateway] and of the three socket
    adapters ([SyncSocketAdapter], [WorkspaceSyncAdapter],
    [UserspaceSyncAdapter]).

    - A connection ([Socket]) is its id, the set of rooms it is in
      ([client.rooms], a JS [Set<string>]) and the trace of the calls it
      made to the outside: permission checks, storage and doc reader calls,
      [client.emit] and [client.to(room).emit].
    - The collaborators that are injected into the gateway (runtime flags,
      permission service, the two storages, the doc reader), the global
      [AFFiNE.version], [DocID] and Node's [Buffer] codec are the fields of
      [Env].  The answer of a storage call may depend on every call made
      before it.
    - A method is a function in the monad [M]: it takes the connection,
      returns the connection it leaves behind and either a value or the
      error thrown.  An [await] is a sequencing point; the transport runs
      one handler of a connection at a time.
    - Failures of the collaborators themselves (a storage exception) are
      not part of the model. *)

From Stdlib Require Import ZArith List String Ascii Bool Lia DecimalString.
From stdpp Require Import base strings gmap.
Import ListNotations.
Open Scope string_scope.
Open Scope list_scope.

(** stdpp keeps [simpl] from unfolding the append of strings; the room names
    and the payloads below are composed with it. *)
#[local] Arguments String.append !s1 s2 : simpl nomatch.

(** ** Values that cross the socket *)

Definition Buffer := list Byte.byte.

(** The payload of an event and the reply of a handler: a JS value.  An
    object keeps its keys in insertion order. *)
#[local] Unset Elimination Schemes.
Inductive Json :=
| JUndefined
| JBool (b : bool)
| JNum (n : Z)
| JStr (s : string)
| JArr (items : list Json)
| JObj (fields : list (string * Json)).
#[local] Set Elimination Schemes.

(** [enum SpaceType { Workspace = 'workspace', Userspace = 'userspace' }] *)
Inductive SpaceType := Workspace | Userspace.

Definition SpaceType_str (t : SpaceType) : string :=
  match t with
  | Workspace => "workspace"
  | Userspace => "userspace"
  end.

Definition SpaceType_eqb (a b : SpaceType) : bool :=
  match a, b with
  | Workspace, Workspace | Userspace, Userspace => true
  | _, _ => false
  end.

(** [type RoomType = 'sync' | `${string}:awareness`] : the strings a room
    type ranges over. *)
Inductive RoomType :=
| Sync
| Awareness (docId : string).

Definition RoomType_str (r : RoomType) : string :=
  match r with
  | Sync => "sync"
  | Awareness docId => docId +:+ ":awareness"
  end.

(** [function Room(spaceId, type = 'sync')] *)
Definition Room (spaceId : string) (type : option string) : string :=
  spaceId +:+ ":" +:+ default "sync" type.

(** The errors the gateway throws. *)
Inductive UserFriendlyError :=
| VersionRejected (version serverVersion : string)
| SpaceAccessDenied (spaceId : string)
| NotInSpace (spaceId : string)
| DocNotFound (spaceId docId : string).

Inductive Result (A : Type) :=
| Ok (a : A)
| Err (e : UserFriendlyError).
Arguments Ok {A} a.
Arguments Err {A} e.

(** What [getDocDiff] resolves to when the doc exists. *)
Record DocDiff := {
  missing : Buffer;
  state : Buffer;
  timestamp : Z
}.

(** The message bodies. *)
Module JoinSpaceMessage.
Record t := {
  spaceType : SpaceType;
  spaceId : string;
  clientVersion : option string
}.
End JoinSpaceMessage.

Module JoinSpaceAwarenessMessage.
Record t := {
  spaceType : SpaceType;
  spaceId : string;
  docId : string;
  clientVersion : option string
}.
End JoinSpaceAwarenessMessage.

Module LeaveSpaceMessage.
Record t := {
  spaceType : SpaceType;
  spaceId : string
}.
End LeaveSpaceMessage.

Module PushDocUpdatesMessage.
Record t := {
  spaceType : SpaceType;
  spaceId : string;
  docId : string;
  updates : list string
}.
End PushDocUpdatesMessage.

Module PushDocUpdateMessage.
Record t := {
  spaceType : SpaceType;
  spaceId : string;
  docId : string;
  update : string
}.
End PushDocUpdateMessage.

Module LoadDocMessage.
Record t := {
  spaceType : SpaceType;
  spaceId : string;
  docId : string;
  stateVector : option string
}.
End LoadDocMessage.

Module DeleteDocMessage.
Record t := {
  spaceType : SpaceType;
  spaceId : string;
  docId : string
}.
End DeleteDocMessage.

Module LoadDocTimestampsMessage.
Record t := {
  spaceType : SpaceType;
  spaceId : string;
  timestamp : option Z
}.
End LoadDocTimestampsMessage.

(** The body of the legacy [client-update-v2] event. *)
Module ClientUpdateV2.
Record t := {
  workspaceId : string;
  guid : string;
  updates : list string
}.
End ClientUpdateV2.

(** JS truthiness of an optional string: [undefined] and [''] are falsy. *)
Definition truthy (s : option string) : bool :=
  match s with
  | Some s => negb (String.eqb s "")
  | None => false
  end.

Definition Json_of_option_string (s : option string) : Json :=
  match s with
  | Some s => JStr s
  | None => JUndefined
  end.

Section Gateway.

(** [WorkspaceRole] of core/permission; the gateway only names its member
    [Collaborator]. *)
Context {WorkspaceRole : Type}.

(** A call of the connection to the outside.  The storage calls carry the
    space type of the adapter whose [storage] they go to. *)
Inductive Call :=
| IsWorkspaceMember (spaceId userId : string) (permission : WorkspaceRole)
| PushDocUpdates (storage : SpaceType) (spaceId docId : string)
    (updates : list Buffer) (editorId : string)
| GetDocDiff (storage : SpaceType) (spaceId docId : string)
    (stateVector : option Buffer)
| DeleteDoc (storage : SpaceType) (spaceId docId : string)
| GetSpaceDocTimestamps (storage : SpaceType) (spaceId : string)
    (after : option Z)
| ReaderGetDocDiff (spaceId docId : string) (stateVector : option Buffer)
| Emit (event : string) (payload : Json)
| ToRoomEmit (room event : string) (payload : Json).

(** The connection: [client.id], [client.rooms] and what it did so far. *)
Record Socket := {
  id : string;
  rooms : gset string;
  trace : list Call
}.

(** What the gateway is constructed with and the globals it reads. *)
Record Env := {
  (** [WorkspaceRole.Collaborator] *)
  Collaborator : WorkspaceRole;
  (** [AFFiNE.version] *)
  AFFiNE_version : string;
  (** [runtime.fetch('flags/syncClientVersionCheck')] *)
  syncClientVersionCheck : bool;
  (** [permissions.isWorkspaceMember(spaceId, userId, permission)] *)
  isWorkspaceMember : string -> string -> WorkspaceRole -> bool;
  (** [new DocID(docId, spaceId).guid]; core/utils/doc is not among the
      sources, so the mapping of the pair to the guid is a parameter. *)
  DocID_guid : string -> string -> string;
  (** [Buffer.from(s, 'base64')] *)
  Buffer_from_base64 : string -> Buffer;
  (** [Buffer.from(b).toString('base64')] *)
  Buffer_toString_base64 : Buffer -> string;
  (** [storage.pushDocUpdates], given the calls made before it *)
  pushDocUpdates :
    SpaceType -> list Call -> string -> string -> list Buffer -> string -> Z;
  (** [storage.getDocDiff] *)
  getDocDiff :
    SpaceType -> list Call -> string -> string -> option Buffer ->
    option DocDiff;
  (** [storage.getSpaceDocTimestamps] *)
  getSpaceDocTimestamps :
    SpaceType -> list Call -> string -> option Z -> option (list (string * Z));
  (** [docReader.getDocDiff] *)
  docReader_getDocDiff :
    list Call -> string -> string -> option Buffer -> option DocDiff
}.

(** ** The monad of a handler: connection in, connection and outcome out.
    What was done before a throw stays done. *)
Definition M (A : Type) : Type := Socket -> Result A * Socket.

Definition ret {A} (a : A) : M A := fun w => (Ok a, w).

Definition throw {A} (e : UserFriendlyError) : M A := fun w => (Err e, w).

Definition bind {A B} (m : M A) (k : A -> M B) : M B :=
  fun w =>
    match m w with
    | (Ok a, w') => k a w'
    | (Err e, w') => (Err e, w')
    end.

Definition call {A} (c : Call) (answer : list Call -> A) : M A :=
  fun w =>
    (Ok (answer (trace w)),
     {| id := id w; rooms := rooms w; trace := trace w ++ [c] |}).

Definition set_rooms (f : gset string -> gset string) : M unit :=
  fun w => (Ok tt, {| id := id w; rooms := f (rooms w); trace := trace w |}).

Definition client_id : M string := fun w => (Ok (id w), w).

(** [client.rooms.has(room)] *)
Definition client_rooms_has (room : string) : M bool :=
  fun w => (Ok (bool_decide (room ∈ rooms w)), w).

(** [client.join(room)] *)
Definition client_join (room : string) : M unit :=
  set_rooms (fun rs => {[room]} ∪ rs).

(** [client.leave(room)] *)
Definition client_leave (room : string) : M unit :=
  set_rooms (fun rs => rs ∖ {[room]}).

(** [client.emit(event, payload)] *)
Definition client_emit (event : string) (payload : Json) : M unit :=
  call (Emit event payload) (fun _ => tt).

(** [client.to(room).emit(event, payload)] *)
Definition client_to_emit (room event : string) (payload : Json) : M unit :=
  call (ToRoomEmit room event payload) (fun _ => tt).

End Gateway.

Arguments Call : clear implicits.
Arguments Socket : clear implicits.
Arguments Env : clear implicits.
Arguments M : clear implicits.

Declare Scope gateway_scope.
Delimit Scope gateway_scope with gateway.
Notation "'let*' x := c 'in' k" := (bind c (fun x => k))
  (at level 10, x name, c at level 100, k at level 200) : gateway_scope.
Notation "c ;; k" := (bind c (fun _ => k))
  (at level 100, k at level 200, right associativity) : gateway_scope.
Open Scope gateway_scope.

(** ** The socket adapters *)

Section Adapters.

Context {WorkspaceRole : Type} (env : Env WorkspaceRole).

#[local] Abbreviation M := (M WorkspaceRole).

(** [SyncSocketAdapter.room]; the adapter is given by its [spaceType]. *)
Definition room (this : SpaceType) (spaceId : string)
    (roomType : option string) : string :=
  SpaceType_str this +:+ ":" +:+ Room spaceId (Some (default "sync" roomType)).

(** [SyncSocketAdapter.in] *)
Definition in_ (this : SpaceType) (spaceId : string)
    (roomType : option string) : M bool :=
  client_rooms_has (room this spaceId roomType).

(** [SyncSocketAdapter.assertIn] *)
Definition assertIn (this : SpaceType) (spaceId : string)
    (roomType : option string) : M unit :=
  let* has := client_rooms_has (room this spaceId roomType) in
  if negb has then throw (NotInSpace spaceId) else ret tt.

(** [WorkspaceSyncAdapter.assertAccessible] *)
Definition WorkspaceSyncAdapter_assertAccessible (spaceId userId : string)
    (permission : option WorkspaceRole) : M unit :=
  let permission := default (Collaborator env) permission in
  let* member := call (IsWorkspaceMember spaceId userId permission)
              (fun _ => isWorkspaceMember env spaceId userId permission) in
  if negb member then throw (SpaceAccessDenied spaceId) else ret tt.

(** [UserspaceSyncAdapter.assertAccessible] *)
Definition UserspaceSyncAdapter_assertAccessible (spaceId userId : string)
    (_permission : option WorkspaceRole) : M unit :=
  if negb (String.eqb spaceId userId)
  then throw (SpaceAccessDenied spaceId)
  else ret tt.

(** The abstract [assertAccessible], resolved by the class of [this]. *)
Definition assertAccessible (this : SpaceType) (spaceId userId : string)
    (permission : option WorkspaceRole) : M unit :=
  match this with
  | Workspace => WorkspaceSyncAdapter_assertAccessible spaceId userId permission
  | Userspace => UserspaceSyncAdapter_assertAccessible spaceId userId permission
  end.

(** [SyncSocketAdapter.join] *)
Definition join (this : SpaceType) (userId spaceId : string)
    (roomType : option string) : M unit :=
  let* already := in_ this spaceId roomType in
  if already then ret tt
  else
    assertAccessible this spaceId userId (Some (Collaborator env)) ;;
    client_join (room this spaceId roomType).

(** [SyncSocketAdapter.leave] *)
Definition leave (this : SpaceType) (spaceId : string)
    (roomType : option string) : M unit :=
  let* already := in_ this spaceId roomType in
  if negb already then ret tt
  else client_leave (room this spaceId roomType).

(** [SyncSocketAdapter.push] *)
Definition SyncSocketAdapter_push (this : SpaceType) (spaceId docId : string)
    (updates : list Buffer) (editorId : string) : M Z :=
  assertIn this spaceId None ;;
  call (PushDocUpdates this spaceId docId updates editorId)
    (fun before => pushDocUpdates env this before spaceId docId updates editorId).

(** [SyncSocketAdapter.diff] *)
Definition SyncSocketAdapter_diff (this : SpaceType) (spaceId docId : string)
    (stateVector : option Buffer) : M (option DocDiff) :=
  assertIn this spaceId None ;;
  call (GetDocDiff this spaceId docId stateVector)
    (fun before => getDocDiff env this before spaceId docId stateVector).

(** [SyncSocketAdapter.delete] *)
Definition delete (this : SpaceType) (spaceId docId : string) : M unit :=
  assertIn this spaceId None ;;
  call (DeleteDoc this spaceId docId) (fun _ => tt).

(** [SyncSocketAdapter.getTimestamps] *)
Definition getTimestamps (this : SpaceType) (spaceId : string)
    (timestamp : option Z) : M (option (list (string * Z))) :=
  assertIn this spaceId None ;;
  call (GetSpaceDocTimestamps this spaceId timestamp)
    (fun before => getSpaceDocTimestamps env this before spaceId timestamp).

(** [WorkspaceSyncAdapter.push] *)
Definition WorkspaceSyncAdapter_push (spaceId docId : string)
    (updates : list Buffer) (editorId : string) : M Z :=
  let id_guid := DocID_guid env docId spaceId in
  SyncSocketAdapter_push Workspace spaceId id_guid updates editorId.

(** [WorkspaceSyncAdapter.diff] *)
Definition WorkspaceSyncAdapter_diff (spaceId docId : string)
    (stateVector : option Buffer) : M (option DocDiff) :=
  let id_guid := DocID_guid env docId spaceId in
  call (ReaderGetDocDiff spaceId id_guid stateVector)
    (fun before => docReader_getDocDiff env before spaceId id_guid stateVector).

(** [push] and [diff] as a call on an adapter finds them: the workspace
    adapter overrides both, the userspace adapter inherits both. *)
Definition push (this : SpaceType) (spaceId docId : string)
    (updates : list Buffer) (editorId : string) : M Z :=
  match this with
  | Workspace => WorkspaceSyncAdapter_push spaceId docId updates editorId
  | Userspace => SyncSocketAdapter_push Userspace spaceId docId updates editorId
  end.

Definition diff (this : SpaceType) (spaceId docId : string)
    (stateVector : option Buffer) : M (option DocDiff) :=
  match this with
  | Workspace => WorkspaceSyncAdapter_diff spaceId docId stateVector
  | Userspace => SyncSocketAdapter_diff Userspace spaceId docId stateVector
  end.

End Adapters.

(** ** The gateway *)

(** [{ ...obj, key: value }]: the key keeps its place when [obj] has it and
    is added last when not. *)
Fixpoint Json_set (fields : list (string * Json)) (key : string)
    (value : Json) : list (string * Json) :=
  match fields with
  | [] => [(key, value)]
  | (k, v) :: rest =>
      if String.eqb k key then (k, value) :: rest
      else (k, v) :: Json_set rest key value
  end.

(** A [PushDocUpdatesMessage] as the object it is. *)
Definition PushDocUpdatesMessage_fields (message : PushDocUpdatesMessage.t)
    : list (string * Json) :=
  [ ("spaceType", JStr (SpaceType_str (PushDocUpdatesMessage.spaceType message)));
    ("spaceId", JStr (PushDocUpdatesMessage.spaceId message));
    ("docId", JStr (PushDocUpdatesMessage.docId message));
    ("updates", JArr (map JStr (PushDocUpdatesMessage.updates message))) ].

(** [version !== AFFiNE.version] *)
Definition version_differs (version : option string) (current : string) : bool :=
  match version with
  | Some v => negb (String.eqb v current)
  | None => true
  end.

Section SpaceSyncGateway.

Context {WorkspaceRole : Type} (env : Env WorkspaceRole).

#[local] Abbreviation M := (M WorkspaceRole).

(** [selectAdapter]: the pair of adapters is made on first use and kept
    on the client; an adapter holds nothing but its space type, the
    client and the injected services, so it is named by its space type. *)
Definition selectAdapter (spaceType : SpaceType) : SpaceType := spaceType.

(** [assertVersion] *)
Definition assertVersion (version : option string) : M unit :=
  let shouldCheckClientVersion := syncClientVersionCheck env in
  if shouldCheckClientVersion && version_differs version (AFFiNE_version env)
  then
    client_emit "server-version-rejected"
      (JObj [ ("currentVersion", Json_of_option_string version);
              ("requiredVersion", JStr (AFFiNE_version env));
              ("reason",
               JStr ("Client version"
                     +:+ (if truthy version
                          then " " +:+ default "" version else "")
                     +:+ " is outdated, please update to "
                     +:+ AFFiNE_version env)) ]) ;;
    throw (VersionRejected
             (if truthy version then default "" version else "unknown")
             (AFFiNE_version env))
  else ret tt.

(** [space:join] *)
Definition onJoinSpace (userId : string) (message : JoinSpaceMessage.t)
    : M Json :=
  assertVersion (JoinSpaceMessage.clientVersion message) ;;
  join env (selectAdapter (JoinSpaceMessage.spaceType message))
    userId (JoinSpaceMessage.spaceId message) None ;;
  let* clientId := client_id in
  ret (JObj [("data", JObj [("clientId", JStr clientId);
                            ("success", JBool true)])]).

(** [space:leave] *)
Definition onLeaveSpace (message : LeaveSpaceMessage.t) : M Json :=
  leave (selectAdapter (LeaveSpaceMessage.spaceType message))
    (LeaveSpaceMessage.spaceId message) None ;;
  let* clientId := client_id in
  ret (JObj [("data", JObj [("clientId", JStr clientId);
                            ("success", JBool true)])]).

(** [space:load-doc] *)
Definition onLoadSpaceDoc (message : LoadDocMessage.t) : M Json :=
  let spaceId := LoadDocMessage.spaceId message in
  let docId := LoadDocMessage.docId message in
  let stateVector := LoadDocMessage.stateVector message in
  let adapter := selectAdapter (LoadDocMessage.spaceType message) in
  assertIn adapter spaceId None ;;
  let* doc :=
    diff env adapter spaceId docId
      (if truthy stateVector
       then Some (Buffer_from_base64 env (default "" stateVector))
       else None) in
  match doc with
  | None => throw (DocNotFound spaceId docId)
  | Some doc =>
      ret (JObj [("data",
                  JObj [("missing",
                         JStr (Buffer_toString_base64 env (missing doc)));
                        ("state",
                         JStr (Buffer_toString_base64 env (state doc)));
                        ("timestamp", JNum (timestamp doc))])])
  end.

(** [space:delete-doc] *)
Definition onDeleteSpaceDoc (message : DeleteDocMessage.t) : M Json :=
  let adapter := selectAdapter (DeleteDocMessage.spaceType message) in
  delete adapter (DeleteDocMessage.spaceId message)
    (DeleteDocMessage.docId message) ;;
  ret JUndefined.

(** [space:push-doc-updates] (deprecated) *)
Definition onReceiveDocUpdates (userId : string)
    (message : PushDocUpdatesMessage.t) : M Json :=
  let spaceType := PushDocUpdatesMessage.spaceType message in
  let spaceId := PushDocUpdatesMessage.spaceId message in
  let docId := PushDocUpdatesMessage.docId message in
  let updates := PushDocUpdatesMessage.updates message in
  let adapter := selectAdapter spaceType in
  let* timestamp :=
    push env adapter spaceId docId
      (map (Buffer_from_base64 env) updates) userId in
  client_to_emit (room adapter spaceId None) "space:broadcast-doc-updates"
    (JObj (Json_set (PushDocUpdatesMessage_fields message)
             "timestamp" (JNum timestamp))) ;;
  (if SpaceType_eqb spaceType Workspace
   then
     let id_guid := DocID_guid env docId spaceId in
     client_to_emit (room adapter spaceId None) "server-updates"
       (JObj [("workspaceId", JStr spaceId);
              ("guid", JStr id_guid);
              ("updates", JArr (map JStr updates));
              ("timestamp", JNum timestamp)])
   else ret tt) ;;
  ret (JObj [("data", JObj [("accepted", JBool true);
                            ("timestamp", JNum timestamp)])]).

(** [space:push-doc-update] *)
Definition onReceiveDocUpdate (userId : string)
    (message : PushDocUpdateMessage.t) : M Json :=
  let spaceType := PushDocUpdateMessage.spaceType message in
  let spaceId := PushDocUpdateMessage.spaceId message in
  let docId := PushDocUpdateMessage.docId message in
  let update := PushDocUpdateMessage.update message in
  let adapter := selectAdapter spaceType in
  let* timestamp :=
    push env adapter spaceId docId [Buffer_from_base64 env update] userId in
  client_to_emit (room adapter spaceId None) "space:broadcast-doc-updates"
    (JObj [("spaceType", JStr (SpaceType_str spaceType));
           ("spaceId", JStr spaceId);
           ("docId", JStr docId);
           ("updates", JArr [JStr update]);
           ("timestamp", JNum timestamp)]) ;;
  client_to_emit (room adapter spaceId None) "space:broadcast-doc-update"
    (JObj [("spaceType", JStr (SpaceType_str spaceType));
           ("spaceId", JStr spaceId);
           ("docId", JStr docId);
           ("update", JStr update);
           ("timestamp", JNum timestamp);
           ("editor", JStr userId)]) ;;
  ret (JObj [("data", JObj [("accepted", JBool true);
                            ("timestamp", JNum timestamp)])]).

(** [space:load-doc-timestamps] *)
Definition onLoadDocTimestamps (message : LoadDocTimestampsMessage.t)
    : M Json :=
  let adapter := selectAdapter (LoadDocTimestampsMessage.spaceType message) in
  let* stats :=
    getTimestamps env adapter (LoadDocTimestampsMessage.spaceId message)
      (LoadDocTimestampsMessage.timestamp message) in
  ret (JObj [("data",
              JObj (map (fun kv => (fst kv, JNum (snd kv)))
                      (default [] stats)))]).

(** [space:join-awareness] *)
Definition onJoinAwareness (userId : string)
    (message : JoinSpaceAwarenessMessage.t) : M Json :=
  assertVersion (JoinSpaceAwarenessMessage.clientVersion message) ;;
  join env (selectAdapter (JoinSpaceAwarenessMessage.spaceType message))
    userId (JoinSpaceAwarenessMessage.spaceId message)
    (Some (JoinSpaceAwarenessMessage.docId message +:+ ":awareness")) ;;
  let* clientId := client_id in
  ret (JObj [("data", JObj [("clientId", JStr clientId);
                            ("success", JBool true)])]).

(** [client-handshake-sync] (deprecated) *)
Definition handleClientHandshakeSync (userId workspaceId : string)
    (version : option string) : M Json :=
  assertVersion version ;;
  onJoinSpace userId
    {| JoinSpaceMessage.spaceType := Workspace;
       JoinSpaceMessage.spaceId := workspaceId;
       JoinSpaceMessage.clientVersion := version |}.

(** [client-update-v2] (deprecated) *)
Definition handleClientUpdateV2 (userId : string)
    (body : ClientUpdateV2.t) : M Json :=
  onReceiveDocUpdates userId
    {| PushDocUpdatesMessage.spaceType := Workspace;
       PushDocUpdatesMessage.spaceId := ClientUpdateV2.workspaceId body;
       PushDocUpdatesMessage.docId := ClientUpdateV2.guid body;
       PushDocUpdatesMessage.updates := ClientUpdateV2.updates body |}.

(** [doc-load-v2] (deprecated) *)
Definition loadDocV2 (workspaceId guid : string)
    (stateVector : option string) : M Json :=
  onLoadSpaceDoc
    {| LoadDocMessage.spaceType := Workspace;
       LoadDocMessage.spaceId := workspaceId;
       LoadDocMessage.docId := guid;
       LoadDocMessage.stateVector := stateVector |}.

End SpaceSyncGateway.

(** ** The awareness handlers and the rest of the deprecated surface *)

Module LeaveSpaceAwarenessMessage.
Record t := {
  spaceType : SpaceType;
  spaceId : string;
  docId : string
}.
End LeaveSpaceAwarenessMessage.

Module LoadSpaceAwarenessesMessage.
Record t := {
  spaceType : SpaceType;
  spaceId : string;
  docId : string
}.
End LoadSpaceAwarenessesMessage.

Module UpdateAwarenessMessage.
Record t := {
  spaceType : SpaceType;
  spaceId : string;
  docId : string;
  awarenessUpdate : string
}.
End UpdateAwarenessMessage.

(** An [UpdateAwarenessMessage] as the object it is. *)
Definition UpdateAwarenessMessage_fields (message : UpdateAwarenessMessage.t)
    : list (string * Json) :=
  [ ("spaceType", JStr (SpaceType_str (UpdateAwarenessMessage.spaceType message)));
    ("spaceId", JStr (UpdateAwarenessMessage.spaceId message));
    ("docId", JStr (UpdateAwarenessMessage.docId message));
    ("awarenessUpdate", JStr (UpdateAwarenessMessage.awarenessUpdate message)) ].

Section Awareness.

Context {WorkspaceRole : Type} (env : Env WorkspaceRole).

#[local] Abbreviation M := (M WorkspaceRole).

(** [space:leave-awareness] *)
Definition onLeaveAwareness (message : LeaveSpaceAwarenessMessage.t) : M Json :=
  leave (selectAdapter (LeaveSpaceAwarenessMessage.spaceType message))
    (LeaveSpaceAwarenessMessage.spaceId message)
    (Some (LeaveSpaceAwarenessMessage.docId message +:+ ":awareness")) ;;
  let* clientId := client_id in
  ret (JObj [("data", JObj [("clientId", JStr clientId);
                            ("success", JBool true)])]).

(** [space:load-awarenesses]; [new-client-awareness-init] is emitted
    without a payload. *)
Definition onLoadAwareness (message : LoadSpaceAwarenessesMessage.t) : M Json :=
  let spaceType := LoadSpaceAwarenessesMessage.spaceType message in
  let spaceId := LoadSpaceAwarenessesMessage.spaceId message in
  let docId := LoadSpaceAwarenessesMessage.docId message in
  let adapter := selectAdapter spaceType in
  let roomType := docId +:+ ":awareness" in
  assertIn adapter spaceId (Some roomType) ;;
  client_to_emit (room adapter spaceId (Some roomType)) "space:collect-awareness"
    (JObj [("spaceType", JStr (SpaceType_str spaceType));
           ("spaceId", JStr spaceId);
           ("docId", JStr docId)]) ;;
  (if SpaceType_eqb spaceType Workspace
   then client_to_emit (room adapter spaceId (Some roomType))
          "new-client-awareness-init" JUndefined
   else ret tt) ;;
  let* clientId := client_id in
  ret (JObj [("data", JObj [("clientId", JStr clientId)])]).

(** [space:update-awareness] *)
Definition onUpdateAwareness (message : UpdateAwarenessMessage.t) : M Json :=
  let spaceType := UpdateAwarenessMessage.spaceType message in
  let spaceId := UpdateAwarenessMessage.spaceId message in
  let docId := UpdateAwarenessMessage.docId message in
  let adapter := selectAdapter spaceType in
  let roomType := docId +:+ ":awareness" in
  assertIn adapter spaceId (Some roomType) ;;
  client_to_emit (room adapter spaceId (Some roomType))
    "space:broadcast-awareness-update"
    (JObj (UpdateAwarenessMessage_fields message)) ;;
  (if SpaceType_eqb spaceType Workspace
   then client_to_emit (room adapter spaceId (Some roomType))
          "server-awareness-broadcast"
          (JObj [("workspaceId", JStr spaceId);
                 ("awarenessUpdate",
                  JStr (UpdateAwarenessMessage.awarenessUpdate message))])
   else ret tt) ;;
  ret (JObj []).

(** [client-leave-sync] (deprecated) *)
Definition handleLeaveSync (workspaceId : string) : M Json :=
  onLeaveSpace
    {| LeaveSpaceMessage.spaceType := Workspace;
       LeaveSpaceMessage.spaceId := workspaceId |}.

(** [client-pre-sync] (deprecated) *)
Definition loadDocStats (workspaceId : string) (timestamp : option Z)
    : M Json :=
  onLoadDocTimestamps env
    {| LoadDocTimestampsMessage.spaceType := Workspace;
       LoadDocTimestampsMessage.spaceId := workspaceId;
       LoadDocTimestampsMessage.timestamp := timestamp |}.

(** [client-handshake-awareness] (deprecated) *)
Definition handleClientHandshakeAwareness (userId workspaceId : string)
    (version : option string) : M Json :=
  onJoinAwareness env userId
    {| JoinSpaceAwarenessMessage.spaceType := Workspace;
       JoinSpaceAwarenessMessage.spaceId := workspaceId;
       JoinSpaceAwarenessMessage.docId := workspaceId;
       JoinSpaceAwarenessMessage.clientVersion := version |}.

(** [client-leave-awareness] (deprecated) *)
Definition handleLeaveAwareness (workspaceId : string) : M Json :=
  onLeaveAwareness
    {| LeaveSpaceAwarenessMessage.spaceType := Workspace;
       LeaveSpaceAwarenessMessage.spaceId := workspaceId;
       LeaveSpaceAwarenessMessage.docId := workspaceId |}.

(** [awareness-init] (deprecated) *)
Definition handleInitAwareness (workspaceId : string) : M Json :=
  onLoadAwareness
    {| LoadSpaceAwarenessesMessage.spaceType := Workspace;
       LoadSpaceAwarenessesMessage.spaceId := workspaceId;
       LoadSpaceAwarenessesMessage.docId := workspaceId |}.

(** [awareness-update] (deprecated) *)
Definition handleHelpGatheringAwareness (workspaceId awarenessUpdate : string)
    : M Json :=
  onUpdateAwareness
    {| UpdateAwarenessMessage.spaceType := Workspace;
       UpdateAwarenessMessage.spaceId := workspaceId;
       UpdateAwarenessMessage.docId := workspaceId;
       UpdateAwarenessMessage.awarenessUpdate := awarenessUpdate |}.

End Awareness.

(** ** The connection counter of the gateway *)

(** [`${n}`] for the integer a counter holds. *)
Definition Number_toString (n : Z) : string :=
  NilZero.string_of_int (Z.to_int n).

(** What [handleConnection] and [handleDisconnect] touch: the private
    [connectionCount], the lines given to the logger and the values given
    to the [connections] gauge of the socketio metrics. *)
Record Connections := {
  connectionCount : Z;
  logged : list string;
  gauge_connections : list Z
}.

(** The gateway as constructed. *)
Definition no_connections : Connections :=
  {| connectionCount := 0; logged := []; gauge_connections := [] |}.

(** [handleConnection] *)
Definition handleConnection (g : Connections) : Connections :=
  let connectionCount := (connectionCount g + 1)%Z in
  {| connectionCount := connectionCount;
     logged := logged g ++
       ["New connection, total: " +:+ Number_toString connectionCount];
     gauge_connections := gauge_connections g ++ [1%Z] |}.

(** [handleDisconnect] *)
Definition handleDisconnect (g : Connections) : Connections :=
  let connectionCount := (connectionCount g - 1)%Z in
  {| connectionCount := connectionCount;
     logged := logged g ++
       ["Connection disconnected, total: " +:+ Number_toString connectionCount];
     gauge_connections := gauge_connections g ++ [(-1)%Z] |}.

(** What the transport tells the gateway about its connections. *)
Inductive Lifecycle := Connected | Disconnected.

#[global] Instance Lifecycle_eq_dec : EqDecision Lifecycle.
Proof. solve_decision. Defined.

Definition lifecycle (g : Connections) (e : Lifecycle) : Connections :=
  match e with
  | Connected => handleConnection g
  | Disconnected => handleDisconnect g
  end.

Definition lifecycles (events : list Lifecycle) (g : Connections)
    : Connections :=
  fold_left lifecycle events g.

Definition count_of (e : Lifecycle) (events : list Lifecycle) : Z :=
  Z.of_nat (length (filter (fun x => x = e) events)).

Definition sum_Z (l : list Z) : Z := fold_right Z.add 0%Z l.

(** The last character of a string. *)
Fixpoint last_char (s : string) : option ascii :=
  match s with
  | EmptyString => None
  | String c EmptyString => Some c
  | String _ rest => last_char rest
  end.

(** ** A small deployment to run the model on

    One server version, a membership table, a storage that keeps every
    update pushed over the connection and stamps it with the number of
    calls made before it, and RFC 4648 base64 for the [Buffer] codec. *)
Module Demo.

Inductive Role := collaborator | owner.

Definition alphabet : string :=
  "ABCDEFGHIJKLMNOPQRSTUVWXYZabcdefghijklmnopqrstuvwxyz0123456789+/".

Definition sextet (n : N) : ascii :=
  default "="%char (String.get (N.to_nat n) alphabet).

Definition octet (b : Byte.byte) : N := Byte.to_N b.

Fixpoint toString_base64_N (bytes : list N) : string :=
  match bytes with
  | [] => ""
  | [a] =>
      String (sextet (a / 4))
        (String (sextet ((a mod 4) * 16)) "==")
  | [a; b] =>
      String (sextet (a / 4))
        (String (sextet ((a mod 4) * 16 + b / 16))
           (String (sextet ((b mod 16) * 4)) "="))
  | a :: b :: c :: rest =>
      String (sextet (a / 4))
        (String (sextet ((a mod 4) * 16 + b / 16))
           (String (sextet ((b mod 16) * 4 + c / 64))
              (String (sextet (c mod 64)) (toString_base64_N rest))))
  end%N.

Definition toString_base64 (b : Buffer) : string :=
  toString_base64_N (map octet b).

Fixpoint index_of (c : ascii) (s : string) (i : N) : option N :=
  match s with
  | EmptyString => None
  | String d rest => if Ascii.eqb c d then Some i else index_of c rest (i + 1)%N
  end.

(** The sextets of the characters of the alphabet, the others dropped. *)
Fixpoint sextets (s : string) : list N :=
  match s with
  | EmptyString => []
  | String c rest =>
      match index_of c alphabet 0%N with
      | Some n => n :: sextets rest
      | None => sextets rest
      end
  end.

Definition to_byte (n : N) : Byte.byte :=
  default Byte.x00 (Byte.of_N (n mod 256)%N).

Fixpoint from_sextets (l : list N) : Buffer :=
  match l with
  | a :: b :: c :: d :: rest =>
      to_byte (a * 4 + b / 16) :: to_byte ((b mod 16) * 16 + c / 4)
        :: to_byte ((c mod 4) * 64 + d) :: from_sextets rest
  | [a; b; c] =>
      [to_byte (a * 4 + b / 16); to_byte ((b mod 16) * 16 + c / 4)]
  | [a; b] => [to_byte (a * 4 + b / 16)]
  | _ => []
  end%N.

Definition from_base64 (s : string) : Buffer := from_sextets (sextets s).

(** The demo's guid: a doc id written [<spaceId>:<doc>] loses the prefix. *)
Fixpoint strip_prefix (p s : string) : option string :=
  match p, s with
  | EmptyString, _ => Some s
  | String a p', String b s' =>
      if Ascii.eqb a b then strip_prefix p' s' else None
  | String _ _, EmptyString => None
  end.

Definition guid (docId spaceId : string) : string :=
  default docId (strip_prefix (spaceId +:+ ":") docId).

(** The updates of a doc that the calls made so far pushed to a storage. *)
Fixpoint pushed (storage : SpaceType) (spaceId docId : string)
    (calls : list (Call Role)) : list Buffer :=
  match calls with
  | [] => []
  | PushDocUpdates st s d updates _ :: rest =>
      if SpaceType_eqb st storage && String.eqb s spaceId && String.eqb d docId
      then updates ++ pushed storage spaceId docId rest
      else pushed storage spaceId docId rest
  | _ :: rest => pushed storage spaceId docId rest
  end.

Definition doc_diff (storage : SpaceType) (before : list (Call Role))
    (spaceId docId : string) (stateVector : option Buffer) : option DocDiff :=
  match pushed storage spaceId docId before with
  | [] => None
  | updates =>
      Some {| missing := concat updates;
              state := concat updates;
              timestamp := Z.of_nat (length before) |}
  end.

Definition env (versionCheck : bool) (members : list (string * string))
    : Env Role :=
  {| Collaborator := collaborator;
     AFFiNE_version := "0.19.0";
     syncClientVersionCheck := versionCheck;
     isWorkspaceMember := fun spaceId userId _ =>
       existsb (fun m => String.eqb (fst m) spaceId && String.eqb (snd m) userId)
         members;
     DocID_guid := guid;
     Buffer_from_base64 := from_base64;
     Buffer_toString_base64 := toString_base64;
     pushDocUpdates := fun _ before _ _ _ _ => Z.of_nat (length before);
     getDocDiff := doc_diff;
     getSpaceDocTimestamps := fun _ _ _ _ => None;
     docReader_getDocDiff := doc_diff Workspace |}.

(** A fresh connection; socket.io puts it in the room of its own id. *)
Definition connect (clientId : string) : Socket Role :=
  {| id := clientId; rooms := {[clientId]}; trace := [] |}.

(** Run a handler and keep the connection it leaves. *)
Definition after {A} (m : M Role A) (w : Socket Role) : Socket Role :=
  snd (m w).

(** alice is a member of workspace W1; bob is not. *)
Definition members : list (string * string) := [("W1", "alice")].

(** The deployment with the version check off, with it on, and after
    every membership was revoked. *)
Definition open_env : Env Role := env false members.
Definition strict_env : Env Role := env true members.
Definition revoked_env : Env Role := env false [].

Definition fresh : Socket Role := connect "c1".

(** alice's connection after she joined W1, and after she joined her own
    userspace. *)
Definition joined : Socket Role :=
  after (join open_env Workspace "alice" "W1" None) fresh.

Definition joined_own : Socket Role :=
  after (join open_env Userspace "alice" "alice" None) fresh.

(** bob's connection after his join of W1 was denied. *)
Definition denied : Socket Role :=
  after (join open_env Workspace "bob" "W1" None) fresh.

(** [AQID] is the base64 of the bytes 1, 2, 3. *)
Definition push_D1 : PushDocUpdateMessage.t :=
  {| PushDocUpdateMessage.spaceType := Workspace;
     PushDocUpdateMessage.spaceId := "W1";
     PushDocUpdateMessage.docId := "D1";
     PushDocUpdateMessage.update := "AQID" |}.

Definition pushed_D1 : Socket Role :=
  after (onReceiveDocUpdate open_env "alice" push_D1) joined.

Definition load (docId : string) : LoadDocMessage.t :=
  {| LoadDocMessage.spaceType := Workspace;
     LoadDocMessage.spaceId := "W1";
     LoadDocMessage.docId := docId;
     LoadDocMessage.stateVector := None |}.

Definition push_updates (spaceType : SpaceType) (spaceId : string)
    : PushDocUpdatesMessage.t :=
  {| PushDocUpdatesMessage.spaceType := spaceType;
     PushDocUpdatesMessage.spaceId := spaceId;
     PushDocUpdatesMessage.docId := "D1";
     PushDocUpdatesMessage.updates := ["AQID"] |}.

Definition join_W1 (clientVersion : option string) : JoinSpaceMessage.t :=
  {| JoinSpaceMessage.spaceType := Workspace;
     JoinSpaceMessage.spaceId := "W1";
     JoinSpaceMessage.clientVersion := clientVersion |}.

(** The open deployment with a storage that knows the timestamp of D1. *)
Definition stamped_env : Env Role :=
  {| Collaborator := Collaborator open_env;
     AFFiNE_version := AFFiNE_version open_env;
     syncClientVersionCheck := syncClientVersionCheck open_env;
     isWorkspaceMember := isWorkspaceMember open_env;
     DocID_guid := DocID_guid open_env;
     Buffer_from_base64 := Buffer_from_base64 open_env;
     Buffer_toString_base64 := Buffer_toString_base64 open_env;
     pushDocUpdates := pushDocUpdates open_env;
     getDocDiff := getDocDiff open_env;
     getSpaceDocTimestamps := fun _ _ _ _ => Some [("D1", 1%Z)];
     docReader_getDocDiff := docReader_getDocDiff open_env |}.

Definition leave_W1 : LeaveSpaceMessage.t :=
  {| LeaveSpaceMessage.spaceType := Workspace;
     LeaveSpaceMessage.spaceId := "W1" |}.

Definition delete_D1 : DeleteDocMessage.t :=
  {| DeleteDocMessage.spaceType := Workspace;
     DeleteDocMessage.spaceId := "W1";
     DeleteDocMessage.docId := "W1:D1" |}.

Definition timestamps_W1 : LoadDocTimestampsMessage.t :=
  {| LoadDocTimestampsMessage.spaceType := Workspace;
     LoadDocTimestampsMessage.spaceId := "W1";
     LoadDocTimestampsMessage.timestamp := None |}.

Definition join_awareness_D1 : JoinSpaceAwarenessMessage.t :=
  {| JoinSpaceAwarenessMessage.spaceType := Workspace;
     JoinSpaceAwarenessMessage.spaceId := "W1";
     JoinSpaceAwarenessMessage.docId := "D1";
     JoinSpaceAwarenessMessage.clientVersion := None |}.

(** alice's connection after she joined the awareness room of D1 only. *)
Definition in_awareness : Socket Role :=
  after (onJoinAwareness open_env "alice" join_awareness_D1) fresh.

Definition load_awareness_D1 : LoadSpaceAwarenessesMessage.t :=
  {| LoadSpaceAwarenessesMessage.spaceType := Workspace;
     LoadSpaceAwarenessesMessage.spaceId := "W1";
     LoadSpaceAwarenessesMessage.docId := "D1" |}.

Definition update_awareness_D1 : UpdateAwarenessMessage.t :=
  {| UpdateAwarenessMessage.spaceType := Workspace;
     UpdateAwarenessMessage.spaceId := "W1";
     UpdateAwarenessMessage.docId := "D1";
     UpdateAwarenessMessage.awarenessUpdate := "AQID" |}.

End Demo.

(** ** Observations on a trace *)

Section Observations.

Context {WorkspaceRole : Type}.

(** The calls that reach a storage or the doc reader. *)
Definition is_storage_call (c : Call WorkspaceRole) : bool :=
  match c with
  | PushDocUpdates _ _ _ _ _ | GetDocDiff _ _ _ _ | DeleteDoc _ _ _
  | GetSpaceDocTimestamps _ _ _ | ReaderGetDocDiff _ _ _ => true
  | _ => false
  end.

Definition storage_calls (t : list (Call WorkspaceRole))
    : list (Call WorkspaceRole) :=
  filter (fun c => is_storage_call c = true) t.

(** The access-control checks made. *)
Definition is_access_check (c : Call WorkspaceRole) : bool :=
  match c with
  | IsWorkspaceMember _ _ _ => true
  | _ => false
  end.

Definition access_checks (t : list (Call WorkspaceRole))
    : list (Call WorkspaceRole) :=
  filter (fun c => is_access_check c = true) t.

(** The notifications sent to the caller: event and payload. *)
Fixpoint notifications (t : list (Call WorkspaceRole))
    : list (string * Json) :=
  match t with
  | [] => []
  | Emit e payload :: rest => (e, payload) :: notifications rest
  | _ :: rest => notifications rest
  end.

(** The rooms and payloads of the broadcasts of one event. *)
Fixpoint broadcasts (event : string) (t : list (Call WorkspaceRole))
    : list (string * Json) :=
  match t with
  | [] => []
  | ToRoomEmit r e payload :: rest =>
      if String.eqb e event then (r, payload) :: broadcasts event rest
      else broadcasts event rest
  | _ :: rest => broadcasts event rest
  end.

(** Whether a string holds the separator of a room name. *)
Fixpoint has_colon (s : string) : bool :=
  match s with
  | EmptyString => false
  | String c rest => Ascii.eqb c ":" || has_colon rest
  end.

(** The calls a handler made: what it added to the trace it found. *)
Definition made (w w' : Socket WorkspaceRole) : list (Call WorkspaceRole) :=
  drop (length (trace w)) (trace w').

(** The doc id that the adapter of a space type hands to its storage: the
    guid for a workspace, the id as given for a userspace. *)
Definition storage_docId (env : Env WorkspaceRole) (this : SpaceType)
    (spaceId docId : string) : string :=
  match this with
  | Workspace => DocID_guid env docId spaceId
  | Userspace => docId
  end.

End Observations.

(** * Properties *)

Section Properties.

Context {WorkspaceRole : Type} (env : Env WorkspaceRole).

#[local] Abbreviation Socket := (Socket WorkspaceRole).

Lemma client_rooms_has_in (r : string) (w : Socket) :
  r ∈ rooms w -> client_rooms_has r w = (Ok true, w).
Proof.
  intros H. unfold client_rooms_has. by rewrite bool_decide_eq_true_2.
Qed.

Lemma client_rooms_has_out (r : string) (w : Socket) :
  r ∉ rooms w -> client_rooms_has r w = (Ok false, w).
Proof.
  intros H. unfold client_rooms_has. by rewrite bool_decide_eq_false_2.
Qed.

Lemma assertIn_in this spaceId roomType (w : Socket) :
  room this spaceId roomType ∈ rooms w ->
  assertIn this spaceId roomType w = (Ok tt, w).
Proof.
  intros H. unfold assertIn, bind. by rewrite client_rooms_has_in.
Qed.

Lemma assertIn_out this spaceId roomType (w : Socket) :
  room this spaceId roomType ∉ rooms w ->
  assertIn this spaceId roomType w = (Err (NotInSpace spaceId), w).
Proof.
  intros H. unfold assertIn, bind. by rewrite client_rooms_has_out.
Qed.

(** A join on a connection already in the room returns at once. *)
Lemma join_in this userId spaceId roomType (w : Socket) :
  room this spaceId roomType ∈ rooms w ->
  join env this userId spaceId roomType w = (Ok tt, w).
Proof.
  intros H. unfold join, in_, bind. by rewrite client_rooms_has_in.
Qed.

(** A join on a connection not in the room is the access check followed
    by [client.join]. *)
Lemma join_out this userId spaceId roomType (w : Socket) :
  room this spaceId roomType ∉ rooms w ->
  join env this userId spaceId roomType w =
    (assertAccessible env this spaceId userId (Some (Collaborator env)) ;;
     client_join (room this spaceId roomType)) w.
Proof.
  intros H. unfold join, in_. unfold bind at 1. by rewrite client_rooms_has_out.
Qed.

(** Whatever [join] does, the rooms it leaves are the ones it found, with
    the room added when it returned normally. *)
Lemma join_rooms this userId spaceId roomType (w : Socket) :
  rooms (snd (join env this userId spaceId roomType w)) =
    match fst (join env this userId spaceId roomType w) with
    | Ok _ => {[room this spaceId roomType]} ∪ rooms w
    | Err _ => rooms w
    end.
Proof.
  destruct (decide (room this spaceId roomType ∈ rooms w)) as [Hin|Hout].
  - rewrite join_in by done. simpl. symmetry.
    apply subseteq_union_1_L. by apply singleton_subseteq_l.
  - rewrite join_out by done.
    destruct this; unfold assertAccessible, bind, call, client_join, set_rooms,
      WorkspaceSyncAdapter_assertAccessible,
      UserspaceSyncAdapter_assertAccessible, bind, call, throw, ret; simpl.
    + by destruct (isWorkspaceMember env spaceId userId (Collaborator env)).
    + by destruct (String.eqb spaceId userId).
Qed.

(** *** Access control on join *)

(** C1 (amended): on a connection that is not yet in the target room, a
    join of a workspace space by a user for whom [isWorkspaceMember]
    answers false at role [Collaborator] throws [SpaceAccessDenied] after
    that one check and leaves the rooms as they were; a join of a
    userspace space whose id differs from the user's id throws
    [SpaceAccessDenied] and touches nothing.  Whenever a join returns
    normally the connection is in the room.  On a connection that is
    already in the room, join returns at once and checks nothing. *)
Theorem join_access_control this userId spaceId roomType (w : Socket) :
  (room Workspace spaceId roomType ∉ rooms w ->
   isWorkspaceMember env spaceId userId (Collaborator env) = false ->
   join env Workspace userId spaceId roomType w =
     (Err (SpaceAccessDenied spaceId),
      {| id := id w; rooms := rooms w;
         trace := trace w ++
           [IsWorkspaceMember spaceId userId (Collaborator env)] |}))
  /\ (room Userspace spaceId roomType ∉ rooms w ->
      spaceId <> userId ->
      join env Userspace userId spaceId roomType w =
        (Err (SpaceAccessDenied spaceId), w))
  /\ (fst (join env this userId spaceId roomType w) = Ok tt ->
      room this spaceId roomType
        ∈ rooms (snd (join env this userId spaceId roomType w)))
  /\ (room this spaceId roomType ∈ rooms w ->
      join env this userId spaceId roomType w = (Ok tt, w)).
Proof.
  repeat split.
  - intros Hout Hno. rewrite join_out by done.
    unfold assertAccessible, WorkspaceSyncAdapter_assertAccessible, bind, call.
    simpl. by rewrite Hno.
  - intros Hout Hne. rewrite join_out by done.
    unfold assertAccessible, UserspaceSyncAdapter_assertAccessible, bind.
    apply String.eqb_neq in Hne. by rewrite Hne.
  - intros Hok. rewrite join_rooms, Hok.
    apply elem_of_union_l. by apply elem_of_singleton.
  - apply join_in.
Qed.

(** C10: the userspace [assertAccessible] gives the same outcome for any
    two role arguments (given or left out); it returns normally when
    [spaceId] equals [userId] and throws [SpaceAccessDenied] when not. *)
Theorem userspace_access_ignores_role spaceId userId
    (r1 r2 : option WorkspaceRole) (w : Socket) :
  assertAccessible env Userspace spaceId userId r1 w =
    assertAccessible env Userspace spaceId userId r2 w
  /\ (spaceId = userId ->
      assertAccessible env Userspace spaceId userId r1 w = (Ok tt, w))
  /\ (spaceId <> userId ->
      assertAccessible env Userspace spaceId userId r1 w =
        (Err (SpaceAccessDenied spaceId), w)).
Proof.
  unfold assertAccessible, UserspaceSyncAdapter_assertAccessible.
  split; [reflexivity|]. split.
  - intros ->. by rewrite String.eqb_refl.
  - intros Hne. apply String.eqb_neq in Hne. by rewrite Hne.
Qed.

(** *** The guard of the storage operations *)

Lemma SyncSocketAdapter_push_out this spaceId docId updates editorId
    (w : Socket) :
  room this spaceId None ∉ rooms w ->
  SyncSocketAdapter_push env this spaceId docId updates editorId w =
    (Err (NotInSpace spaceId), w).
Proof.
  intros H. unfold SyncSocketAdapter_push, bind. by rewrite assertIn_out.
Qed.

Lemma SyncSocketAdapter_push_in this spaceId docId updates editorId
    (w : Socket) :
  room this spaceId None ∈ rooms w ->
  SyncSocketAdapter_push env this spaceId docId updates editorId w =
    (Ok (pushDocUpdates env this (trace w) spaceId docId updates editorId),
     {| id := id w; rooms := rooms w;
        trace := trace w ++
          [PushDocUpdates this spaceId docId updates editorId] |}).
Proof.
  intros H. unfold SyncSocketAdapter_push, bind. by rewrite assertIn_in.
Qed.

Lemma push_out this spaceId docId updates editorId (w : Socket) :
  room this spaceId None ∉ rooms w ->
  push env this spaceId docId updates editorId w =
    (Err (NotInSpace spaceId), w).
Proof.
  intros H. destruct this; unfold push, WorkspaceSyncAdapter_push;
    by apply SyncSocketAdapter_push_out.
Qed.

Lemma push_in this spaceId docId updates editorId (w : Socket) :
  room this spaceId None ∈ rooms w ->
  push env this spaceId docId updates editorId w =
    (Ok (pushDocUpdates env this (trace w) spaceId
           (storage_docId env this spaceId docId) updates editorId),
     {| id := id w; rooms := rooms w;
        trace := trace w ++
          [PushDocUpdates this spaceId (storage_docId env this spaceId docId)
             updates editorId] |}).
Proof.
  intros H. destruct this; unfold push, WorkspaceSyncAdapter_push;
    by apply SyncSocketAdapter_push_in.
Qed.

(** C2 (amended): on a connection that has not joined the sync room of
    the space, [push], [delete] and [getTimestamps] of both adapters and
    [diff] of the userspace adapter throw [NotInSpace] and leave the
    connection as it was, so no storage is called.  [diff] of the
    workspace adapter makes no membership check: it asks the doc reader
    for the translated doc id; its caller, the load-doc handler, asserts
    the membership first and throws [NotInSpace] for both space types. *)
Theorem not_in_space_guards this spaceId (w : Socket) :
  room this spaceId None ∉ rooms w ->
  (forall docId updates editorId,
      push env this spaceId docId updates editorId w =
        (Err (NotInSpace spaceId), w))
  /\ (forall docId,
      delete this spaceId docId w = (Err (NotInSpace spaceId), w))
  /\ (forall timestamp,
      getTimestamps env this spaceId timestamp w =
        (Err (NotInSpace spaceId), w))
  /\ (forall docId stateVector,
      this = Userspace ->
      diff env this spaceId docId stateVector w =
        (Err (NotInSpace spaceId), w))
  /\ (forall docId stateVector,
      onLoadSpaceDoc env
        {| LoadDocMessage.spaceType := this;
           LoadDocMessage.spaceId := spaceId;
           LoadDocMessage.docId := docId;
           LoadDocMessage.stateVector := stateVector |} w =
        (Err (NotInSpace spaceId), w))
  /\ (forall docId stateVector,
      diff env Workspace spaceId docId stateVector w =
        (Ok (docReader_getDocDiff env (trace w) spaceId
               (DocID_guid env docId spaceId) stateVector),
         {| id := id w; rooms := rooms w;
            trace := trace w ++
              [ReaderGetDocDiff spaceId (DocID_guid env docId spaceId)
                 stateVector] |})).
Proof.
  intros Hout. repeat split.
  - intros. by apply push_out.
  - intros. unfold delete, bind. by rewrite assertIn_out.
  - intros. unfold getTimestamps, bind. by rewrite assertIn_out.
  - intros docId sv ->. unfold diff, SyncSocketAdapter_diff, bind.
    by rewrite assertIn_out.
  - intros. unfold onLoadSpaceDoc, selectAdapter. simpl.
    unfold bind at 1. by rewrite assertIn_out.
Qed.

(** *** The version gate *)

Lemma made_app (w w' : Socket) (l : list (Call WorkspaceRole)) :
  trace w' = trace w ++ l -> made w w' = l.
Proof. intros H. unfold made. rewrite H. apply drop_app_length. Qed.

Lemma notifications_app (l k : list (Call WorkspaceRole)) :
  notifications (l ++ k) = notifications l ++ notifications k.
Proof.
  induction l as [|c l IH]; [done|].
  destruct c; simpl; by rewrite ?IH.
Qed.

(** The calls a join makes: one membership check when the adapter is the
    workspace one and the connection is not yet in the room. *)
Lemma join_trace this userId spaceId roomType (w : Socket) :
  trace (snd (join env this userId spaceId roomType w)) =
    trace w ++
      (if bool_decide (room this spaceId roomType ∈ rooms w) then []
       else match this with
            | Workspace =>
                [IsWorkspaceMember spaceId userId (Collaborator env)]
            | Userspace => []
            end).
Proof.
  case_bool_decide as Hin.
  - rewrite join_in by done. simpl. by rewrite app_nil_r.
  - rewrite join_out by done.
    destruct this; unfold assertAccessible, bind, call, client_join, set_rooms,
      WorkspaceSyncAdapter_assertAccessible,
      UserspaceSyncAdapter_assertAccessible, bind, call, throw, ret; simpl.
    + by destruct (isWorkspaceMember env spaceId userId (Collaborator env)).
    + destruct (String.eqb spaceId userId); simpl; by rewrite app_nil_r.
Qed.

Lemma assertVersion_off version (w : Socket) :
  syncClientVersionCheck env = false ->
  assertVersion env version w = (Ok tt, w).
Proof. intros H. unfold assertVersion. by rewrite H. Qed.

Lemma version_differs_ne version current :
  version <> Some current -> version_differs version current = true.
Proof.
  destruct version as [v|]; simpl; [|done].
  intros H. apply negb_true_iff, String.eqb_neq. congruence.
Qed.

(** C3: on a join-space request with the flag [syncClientVersionCheck] on
    and a client version that is not the server's, the handler sends the
    caller exactly one [server-version-rejected] notification and throws
    [VersionRejected]; it does nothing else, so no room is joined and no
    access check is made.  With the flag off the version is not looked
    at, whatever it is and also when it is absent: the handler is the
    join followed by the reply, and no notification is sent. *)
Theorem version_gate userId (message : JoinSpaceMessage.t) (w : Socket) :
  let version := JoinSpaceMessage.clientVersion message in
  let run := onJoinSpace env userId message w in
  (syncClientVersionCheck env = true ->
   version <> Some (AFFiNE_version env) ->
   run =
     (Err (VersionRejected
             (if truthy version then default "" version else "unknown")
             (AFFiNE_version env)),
      {| id := id w; rooms := rooms w;
         trace := trace w ++
           [Emit "server-version-rejected"
              (JObj [ ("currentVersion", Json_of_option_string version);
                      ("requiredVersion", JStr (AFFiNE_version env));
                      ("reason",
                       JStr ("Client version"
                             +:+ (if truthy version
                                  then " " +:+ default "" version else "")
                             +:+ " is outdated, please update to "
                             +:+ AFFiNE_version env)) ])] |})
   /\ length (notifications (made w (snd run))) = 1
   /\ rooms (snd run) = rooms w)
  /\ (syncClientVersionCheck env = false ->
      run =
        (join env (JoinSpaceMessage.spaceType message) userId
           (JoinSpaceMessage.spaceId message) None ;;
         let* clientId := client_id in
         ret (JObj [("data", JObj [("clientId", JStr clientId);
                                   ("success", JBool true)])])) w
      /\ (forall v sv, fst run <> Err (VersionRejected v sv))
      /\ notifications (made w (snd run)) = []).
Proof.
  intros version run. split.
  - intros Hon Hne.
    assert (Hrun : run =
      (Err (VersionRejected
             (if truthy version then default "" version else "unknown")
             (AFFiNE_version env)),
      {| id := id w; rooms := rooms w;
         trace := trace w ++
           [Emit "server-version-rejected"
              (JObj [ ("currentVersion", Json_of_option_string version);
                      ("requiredVersion", JStr (AFFiNE_version env));
                      ("reason",
                       JStr ("Client version"
                             +:+ (if truthy version
                                  then " " +:+ default "" version else "")
                             +:+ " is outdated, please update to "
                             +:+ AFFiNE_version env)) ])] |})).
    { subst run. unfold onJoinSpace. fold version.
      unfold bind at 1. unfold assertVersion.
      by rewrite Hon, (version_differs_ne _ _ Hne). }
    rewrite Hrun. split; [done|]. split; [|done].
    simpl. by erewrite made_app; [|done].
  - intros Hoff.
    assert (Hrun : run =
        (join env (JoinSpaceMessage.spaceType message) userId
           (JoinSpaceMessage.spaceId message) None ;;
         let* clientId := client_id in
         ret (JObj [("data", JObj [("clientId", JStr clientId);
                                   ("success", JBool true)])])) w).
    { subst run. unfold onJoinSpace, selectAdapter.
      unfold bind at 1. by rewrite assertVersion_off. }
    split; [done|]. rewrite Hrun. clear Hrun run.
    pose proof (join_trace (JoinSpaceMessage.spaceType message) userId
                  (JoinSpaceMessage.spaceId message) None w) as Ht.
    pose proof (join_rooms (JoinSpaceMessage.spaceType message) userId
                  (JoinSpaceMessage.spaceId message) None w) as Hr.
    unfold bind, client_id, ret.
    destruct (join env _ userId _ None w) as [[[]|e] w'] eqn:Hj; simpl in *.
    + split; [done|]. rewrite (made_app w w' _ Ht).
      case_bool_decide; [done|]. by destruct (JoinSpaceMessage.spaceType message).
    + split.
      * intros v sv Heq. injection Heq as ->.
        destruct (decide (room (JoinSpaceMessage.spaceType message)
                            (JoinSpaceMessage.spaceId message) None ∈ rooms w))
          as [Hin|Hout].
        -- rewrite join_in in Hj by done. discriminate.
        -- rewrite join_out in Hj by done.
           revert Hj.
           destruct (JoinSpaceMessage.spaceType message);
             unfold assertAccessible, bind, call, client_join, set_rooms,
               WorkspaceSyncAdapter_assertAccessible,
               UserspaceSyncAdapter_assertAccessible, bind, call, throw, ret;
             simpl.
           ++ by destruct (isWorkspaceMember env _ userId (Collaborator env)).
           ++ by destruct (String.eqb _ userId).
      * rewrite (made_app w w' _ Ht).
        case_bool_decide; [done|].
        by destruct (JoinSpaceMessage.spaceType message).
Qed.

(** *** Joining twice *)

(** C4 (amended): with the answers of the permission service unchanged,
    calling join a second time with the same arguments leaves the rooms
    that the first call left.  When the first call returned normally the
    second call does nothing at all: it returns before
    [assertAccessible], so it makes no access-control check.  (When the
    first call was denied, the second call runs the check again.) *)
Theorem join_twice this userId spaceId roomType (w : Socket) :
  let once := join env this userId spaceId roomType w in
  let twice := join env this userId spaceId roomType (snd once) in
  rooms (snd twice) = rooms (snd once)
  /\ (fst once = Ok tt ->
      twice = (Ok tt, snd once)
      /\ access_checks (made (snd once) (snd twice)) = []).
Proof.
  intros once twice.
  assert (Hok : fst once = Ok tt -> twice = (Ok tt, snd once)).
  { intros Hok. subst twice. apply join_in.
    subst once. rewrite join_rooms, Hok.
    apply elem_of_union_l. by apply elem_of_singleton. }
  split.
  - destruct (fst once) as [[]|e] eqn:Hfst.
    + by rewrite Hok.
    + subst twice. rewrite join_rooms.
      destruct (fst (join env this userId spaceId roomType (snd once)))
        as [[]|e'] eqn:Hsnd; [|done].
      exfalso. revert Hsnd. subst once. revert Hfst.
      destruct (decide (room this spaceId roomType ∈ rooms w)) as [Hin|Hout].
      * by rewrite join_in.
      * rewrite join_out by done.
        destruct this; unfold assertAccessible, bind, call, client_join,
          set_rooms, WorkspaceSyncAdapter_assertAccessible,
          UserspaceSyncAdapter_assertAccessible, bind, call, throw, ret; simpl.
        -- destruct (isWorkspaceMember env spaceId userId (Collaborator env))
             eqn:Hm; [done|]. simpl. intros _.
           rewrite join_out by done.
           unfold assertAccessible, bind, call,
             WorkspaceSyncAdapter_assertAccessible; simpl. by rewrite Hm.
        -- destruct (String.eqb spaceId userId) eqn:Hm; [done|]. simpl.
           intros _. rewrite join_out by done.
           unfold assertAccessible, bind,
             UserspaceSyncAdapter_assertAccessible. by rewrite Hm.
  - intros H. rewrite (Hok H). split; [done|]. simpl.
    unfold made. by rewrite drop_all.
Qed.

(** *** Room names *)

Lemma length_append (s t : string) :
  String.length (s +:+ t) = String.length s + String.length t.
Proof. induction s as [|c s IH]; simpl; [done|]. by rewrite IH. Qed.

Lemma append_cancel_r (t s1 s2 : string) :
  s1 +:+ t = s2 +:+ t -> s1 = s2.
Proof.
  revert s2. induction s1 as [|c s1 IH]; intros [|d s2] H; simpl in *.
  - done.
  - apply (f_equal String.length) in H. simpl in H.
    rewrite (length_append s2 t) in H. lia.
  - apply (f_equal String.length) in H. simpl in H.
    rewrite (length_append s1 t) in H. lia.
  - injection H as -> H. f_equal. by apply IH.
Qed.

Lemma RoomType_str_inj (r1 r2 : RoomType) :
  RoomType_str r1 = RoomType_str r2 -> r1 = r2.
Proof.
  destruct r1 as [|d1], r2 as [|d2]; simpl; intros H.
  - done.
  - apply (f_equal String.length) in H.
    rewrite (length_append d2 ":awareness") in H. simpl in H. lia.
  - apply (f_equal String.length) in H.
    rewrite (length_append d1 ":awareness") in H. simpl in H. lia.
  - f_equal. by apply (append_cancel_r ":awareness").
Qed.

(** The first separator of [spaceId:roomType] ends the space id when the
    space id holds none. *)
Lemma Room_split (s1 s2 t1 t2 : string) :
  has_colon s1 = false -> has_colon s2 = false ->
  s1 +:+ ":" +:+ t1 = s2 +:+ ":" +:+ t2 -> s1 = s2 /\ t1 = t2.
Proof.
  revert s2. induction s1 as [|c s1 IH]; intros [|d s2] H1 H2 H; simpl in *.
  - by injection H as ->.
  - injection H as <- _. by rewrite Ascii.eqb_refl in H2.
  - injection H as -> _. by rewrite Ascii.eqb_refl in H1.
  - injection H as -> H.
    apply orb_false_iff in H1 as [_ H1]. apply orb_false_iff in H2 as [_ H2].
    destruct (IH s2 H1 H2 H) as [-> ->]. done.
Qed.

(** C5 (amended): [room] is the function that composes
    [<spaceType>:<spaceId>:<roomType>], with [sync] for a room type left
    out, so equal inputs give equal names; for a fixed space type, two
    different pairs of a space id and a room type ([sync] or
    [<docId>:awareness] for any doc id) give different names provided
    neither space id holds a [:]. *)
Theorem room_name this :
  (forall spaceId (r : RoomType),
      room this spaceId (Some (RoomType_str r)) =
        SpaceType_str this +:+ ":" +:+ spaceId +:+ ":" +:+ RoomType_str r)
  /\ (forall spaceId, room this spaceId None = room this spaceId (Some "sync"))
  /\ (forall s1 s2 (r1 r2 : RoomType),
      has_colon s1 = false -> has_colon s2 = false ->
      (s1, r1) <> (s2, r2) ->
      room this s1 (Some (RoomType_str r1)) <>
        room this s2 (Some (RoomType_str r2))).
Proof.
  repeat split.
  intros s1 s2 r1 r2 H1 H2 Hne Heq. apply Hne.
  unfold room, Room in Heq. simpl in Heq.
  apply String.app_inj in Heq. injection Heq as Heq.
  destruct (Room_split _ _ _ _ H1 H2 Heq) as [-> Hr].
  by rewrite (RoomType_str_inj _ _ Hr).
Qed.

(** *** Loading a doc *)

(** C6: on a load-doc request for a space whose sync room the connection
    is in, when the adapter's [diff] resolves to null the handler throws
    [DocNotFound] with the space id and the doc id of the request, and
    when it resolves to a doc the handler replies with [missing] and
    [state] in base64 and the timestamp of the doc. *)
Theorem load_doc (message : LoadDocMessage.t) (w : Socket) :
  let this := LoadDocMessage.spaceType message in
  let spaceId := LoadDocMessage.spaceId message in
  let docId := LoadDocMessage.docId message in
  let stateVector :=
    if truthy (LoadDocMessage.stateVector message)
    then Some (Buffer_from_base64 env
                 (default "" (LoadDocMessage.stateVector message)))
    else None in
  room this spaceId None ∈ rooms w ->
  (forall w',
      diff env this spaceId docId stateVector w = (Ok None, w') ->
      onLoadSpaceDoc env message w = (Err (DocNotFound spaceId docId), w'))
  /\ (forall doc w',
      diff env this spaceId docId stateVector w = (Ok (Some doc), w') ->
      onLoadSpaceDoc env message w =
        (Ok (JObj [("data",
                    JObj [("missing",
                           JStr (Buffer_toString_base64 env (missing doc)));
                          ("state",
                           JStr (Buffer_toString_base64 env (state doc)));
                          ("timestamp", JNum (timestamp doc))])]),
         w')).
Proof.
  intros this spaceId docId stateVector Hin.
  split; [intros w' Hd | intros doc w' Hd];
    unfold onLoadSpaceDoc, selectAdapter;
    fold this spaceId docId stateVector;
    unfold bind at 1; rewrite assertIn_in by done;
    unfold bind; by rewrite Hd.
Qed.

(** *** Pushing updates *)

(** C8: a push on the workspace adapter hands storage the guid that
    [DocID] maps the doc id and the space id to, a push on the userspace
    adapter hands it the doc id as given; the space id, the updates and
    the editor id are the ones of the call.  The call to storage is the
    only thing a push does, and it is made when the connection is in the
    sync room of the space. *)
Theorem push_translates_docId this spaceId docId updates editorId
    (w : Socket) :
  push env this spaceId docId updates editorId w =
    SyncSocketAdapter_push env this spaceId
      (match this with
       | Workspace => DocID_guid env docId spaceId
       | Userspace => docId
       end) updates editorId w
  /\ made w (snd (push env this spaceId docId updates editorId w)) =
       (if bool_decide (room this spaceId None ∈ rooms w)
        then [PushDocUpdates this spaceId
                (match this with
                 | Workspace => DocID_guid env docId spaceId
                 | Userspace => docId
                 end) updates editorId]
        else [])
  /\ rooms (snd (push env this spaceId docId updates editorId w)) = rooms w.
Proof.
  split; [by destruct this|].
  case_bool_decide as Hin.
  - rewrite push_in by done. simpl. split; [|done].
    erewrite made_app; [|done]. by destruct this.
  - rewrite push_out by done. simpl. split; [|done].
    unfold made. by rewrite drop_all.
Qed.

(** *** The two push handlers *)

Lemma onReceiveDocUpdates_out userId (message : PushDocUpdatesMessage.t)
    (w : Socket) :
  room (PushDocUpdatesMessage.spaceType message)
    (PushDocUpdatesMessage.spaceId message) None ∉ rooms w ->
  onReceiveDocUpdates env userId message w =
    (Err (NotInSpace (PushDocUpdatesMessage.spaceId message)), w).
Proof.
  intros Hout. unfold onReceiveDocUpdates, selectAdapter.
  unfold bind at 1. by rewrite push_out.
Qed.

Lemma onReceiveDocUpdates_in userId (message : PushDocUpdatesMessage.t)
    (w : Socket) :
  let spaceType := PushDocUpdatesMessage.spaceType message in
  let spaceId := PushDocUpdatesMessage.spaceId message in
  let docId := PushDocUpdatesMessage.docId message in
  let updates := PushDocUpdatesMessage.updates message in
  let stored := map (Buffer_from_base64 env) updates in
  let timestamp :=
    pushDocUpdates env spaceType (trace w) spaceId
      (storage_docId env spaceType spaceId docId) stored userId in
  room spaceType spaceId None ∈ rooms w ->
  onReceiveDocUpdates env userId message w =
    (Ok (JObj [("data", JObj [("accepted", JBool true);
                              ("timestamp", JNum timestamp)])]),
     {| id := id w; rooms := rooms w;
        trace := trace w ++
          [PushDocUpdates spaceType spaceId
             (storage_docId env spaceType spaceId docId) stored userId;
           ToRoomEmit (room spaceType spaceId None)
             "space:broadcast-doc-updates"
             (JObj [("spaceType", JStr (SpaceType_str spaceType));
                    ("spaceId", JStr spaceId);
                    ("docId", JStr docId);
                    ("updates", JArr (map JStr updates));
                    ("timestamp", JNum timestamp)])] ++
          match spaceType with
          | Workspace =>
              [ToRoomEmit (room spaceType spaceId None) "server-updates"
                 (JObj [("workspaceId", JStr spaceId);
                        ("guid", JStr (DocID_guid env docId spaceId));
                        ("updates", JArr (map JStr updates));
                        ("timestamp", JNum timestamp)])]
          | Userspace => []
          end |}).
Proof.
  intros spaceType spaceId docId updates stored timestamp Hin.
  unfold onReceiveDocUpdates, selectAdapter.
  fold spaceType spaceId docId updates stored.
  unfold bind at 1. rewrite push_in by done. fold timestamp.
  unfold PushDocUpdatesMessage_fields. fold spaceType spaceId docId updates.
  unfold bind, client_to_emit, call, ret. simpl.
  destruct spaceType; simpl; by rewrite <- !app_assoc.
Qed.

Lemma onReceiveDocUpdate_out userId (message : PushDocUpdateMessage.t)
    (w : Socket) :
  room (PushDocUpdateMessage.spaceType message)
    (PushDocUpdateMessage.spaceId message) None ∉ rooms w ->
  onReceiveDocUpdate env userId message w =
    (Err (NotInSpace (PushDocUpdateMessage.spaceId message)), w).
Proof.
  intros Hout. unfold onReceiveDocUpdate, selectAdapter.
  unfold bind at 1. by rewrite push_out.
Qed.

Lemma onReceiveDocUpdate_in userId (message : PushDocUpdateMessage.t)
    (w : Socket) :
  let spaceType := PushDocUpdateMessage.spaceType message in
  let spaceId := PushDocUpdateMessage.spaceId message in
  let docId := PushDocUpdateMessage.docId message in
  let update := PushDocUpdateMessage.update message in
  let stored := [Buffer_from_base64 env update] in
  let timestamp :=
    pushDocUpdates env spaceType (trace w) spaceId
      (storage_docId env spaceType spaceId docId) stored userId in
  room spaceType spaceId None ∈ rooms w ->
  onReceiveDocUpdate env userId message w =
    (Ok (JObj [("data", JObj [("accepted", JBool true);
                              ("timestamp", JNum timestamp)])]),
     {| id := id w; rooms := rooms w;
        trace := trace w ++
          [PushDocUpdates spaceType spaceId
             (storage_docId env spaceType spaceId docId) stored userId;
           ToRoomEmit (room spaceType spaceId None)
             "space:broadcast-doc-updates"
             (JObj [("spaceType", JStr (SpaceType_str spaceType));
                    ("spaceId", JStr spaceId);
                    ("docId", JStr docId);
                    ("updates", JArr [JStr update]);
                    ("timestamp", JNum timestamp)]);
           ToRoomEmit (room spaceType spaceId None)
             "space:broadcast-doc-update"
             (JObj [("spaceType", JStr (SpaceType_str spaceType));
                    ("spaceId", JStr spaceId);
                    ("docId", JStr docId);
                    ("update", JStr update);
                    ("timestamp", JNum timestamp);
                    ("editor", JStr userId)])] |}).
Proof.
  intros spaceType spaceId docId update stored timestamp Hin.
  unfold onReceiveDocUpdate, selectAdapter.
  fold spaceType spaceId docId update stored.
  unfold bind at 1. rewrite push_in by done. fold timestamp.
  unfold bind, client_to_emit, call, ret. simpl.
  by rewrite <- !app_assoc.
Qed.

(** C9 (amended): on a push-doc-updates request whose push succeeds (the
    connection is in the sync room of the space), the handler broadcasts
    [space:broadcast-doc-updates] to the room and then, if and only if
    the space type is workspace, the legacy [server-updates] event with
    the flat [workspaceId] and [guid] fields; for a userspace space the
    first event is the only broadcast.  When the push throws, nothing is
    broadcast for either space type. *)
Theorem legacy_server_updates userId (message : PushDocUpdatesMessage.t)
    (w : Socket) :
  let spaceType := PushDocUpdatesMessage.spaceType message in
  let spaceId := PushDocUpdatesMessage.spaceId message in
  let docId := PushDocUpdatesMessage.docId message in
  let updates := PushDocUpdatesMessage.updates message in
  let timestamp :=
    pushDocUpdates env spaceType (trace w) spaceId
      (storage_docId env spaceType spaceId docId)
      (map (Buffer_from_base64 env) updates) userId in
  let calls := made w (snd (onReceiveDocUpdates env userId message w)) in
  (room spaceType spaceId None ∈ rooms w ->
   broadcasts "space:broadcast-doc-updates" calls =
     [(room spaceType spaceId None,
       JObj [("spaceType", JStr (SpaceType_str spaceType));
             ("spaceId", JStr spaceId);
             ("docId", JStr docId);
             ("updates", JArr (map JStr updates));
             ("timestamp", JNum timestamp)])]
   /\ (broadcasts "server-updates" calls <> [] <-> spaceType = Workspace)
   /\ (spaceType = Workspace ->
       broadcasts "server-updates" calls =
         [(room spaceType spaceId None,
           JObj [("workspaceId", JStr spaceId);
                 ("guid", JStr (DocID_guid env docId spaceId));
                 ("updates", JArr (map JStr updates));
                 ("timestamp", JNum timestamp)])])
   /\ (spaceType = Userspace ->
       exists push,
         calls = [push;
                  ToRoomEmit (room spaceType spaceId None)
                    "space:broadcast-doc-updates"
                    (JObj [("spaceType", JStr (SpaceType_str spaceType));
                           ("spaceId", JStr spaceId);
                           ("docId", JStr docId);
                           ("updates", JArr (map JStr updates));
                           ("timestamp", JNum timestamp)])]
         /\ is_storage_call push = true))
  /\ (room spaceType spaceId None ∉ rooms w ->
      onReceiveDocUpdates env userId message w = (Err (NotInSpace spaceId), w)
      /\ calls = []).
Proof.
  intros spaceType spaceId docId updates timestamp calls. split.
  - intros Hin. subst calls.
    rewrite (onReceiveDocUpdates_in userId message w Hin).
    fold spaceType spaceId docId updates timestamp.
    erewrite made_app; [|done].
    destruct spaceType; simpl.
    + split; [done|]. split; [split; [done | intros _; discriminate]|].
      split; [done|]. intros; discriminate.
    + split; [done|].
      split; [split; [intros H; by destruct H | intros; discriminate]|].
      split; [intros; discriminate|].
      intros _. eexists. split; [reflexivity|done].
  - intros Hout. subst calls.
    rewrite (onReceiveDocUpdates_out userId message w Hout). split; [done|].
    unfold made. simpl. by rewrite drop_all.
Qed.

(** C7: for every workspace id W, doc id D and base64 update u, the
    legacy [client-update-v2] with [{workspaceId: W, guid: D, updates:
    [u]}] and [push-doc-update] with [{spaceType: workspace, spaceId: W,
    docId: D, update: u}] make the same call to storage (the workspace
    storage, space id W, the guid of D, the decoded bytes of u, the
    user's id as editor), broadcast the same
    [space:broadcast-doc-updates] payload (space type, space id, doc id,
    updates, timestamp) to the same room, and give the same reply. *)
Theorem legacy_update_matches userId W D u (w : Socket) :
  let legacy :=
    handleClientUpdateV2 env userId
      {| ClientUpdateV2.workspaceId := W;
         ClientUpdateV2.guid := D;
         ClientUpdateV2.updates := [u] |} w in
  let current :=
    onReceiveDocUpdate env userId
      {| PushDocUpdateMessage.spaceType := Workspace;
         PushDocUpdateMessage.spaceId := W;
         PushDocUpdateMessage.docId := D;
         PushDocUpdateMessage.update := u |} w in
  let joined := bool_decide (room Workspace W None ∈ rooms w) in
  let timestamp :=
    pushDocUpdates env Workspace (trace w) W (DocID_guid env D W)
      [Buffer_from_base64 env u] userId in
  let stored :=
    if joined
    then [PushDocUpdates Workspace W (DocID_guid env D W)
            [Buffer_from_base64 env u] userId]
    else [] in
  let broadcast :=
    if joined
    then [(room Workspace W None,
           JObj [("spaceType", JStr "workspace");
                 ("spaceId", JStr W);
                 ("docId", JStr D);
                 ("updates", JArr [JStr u]);
                 ("timestamp", JNum timestamp)])]
    else [] in
  storage_calls (made w (snd legacy)) = stored
  /\ storage_calls (made w (snd current)) = stored
  /\ broadcasts "space:broadcast-doc-updates" (made w (snd legacy)) = broadcast
  /\ broadcasts "space:broadcast-doc-updates" (made w (snd current)) = broadcast
  /\ fst legacy = fst current
  /\ rooms (snd legacy) = rooms (snd current).
Proof.
  intros legacy current joined timestamp stored broadcast.
  subst legacy current stored broadcast joined. unfold handleClientUpdateV2.
  case_bool_decide as Hin.
  - rewrite onReceiveDocUpdates_in by done.
    rewrite onReceiveDocUpdate_in by done. simpl.
    erewrite !made_app by done. by simpl.
  - rewrite onReceiveDocUpdates_out by done.
    rewrite onReceiveDocUpdate_out by done. simpl.
    unfold made. by rewrite drop_all.
Qed.

End Properties.

(** * Runs on the demo deployment *)

Section Runs.

Import Demo.

Lemma not_in_rooms (r : string) (w : Socket Role) :
  bool_decide (r ∈ rooms w) = false -> r ∉ rooms w.
Proof. apply bool_decide_eq_false. Qed.

Lemma in_rooms (r : string) (w : Socket Role) :
  bool_decide (r ∈ rooms w) = true -> r ∈ rooms w.
Proof. apply bool_decide_eq_true. Qed.

Example base64_of_bytes :
  toString_base64 [Byte.x01; Byte.x02; Byte.x03] = "AQID"
  /\ from_base64 "AQID" = [Byte.x01; Byte.x02; Byte.x03]
  /\ toString_base64 (from_base64 "aGVsbG8=") = "aGVsbG8=".
Proof. by vm_compute. Qed.

Example push_D1_trace :
  trace pushed_D1 =
    [ IsWorkspaceMember "W1" "alice" collaborator;
      PushDocUpdates Workspace "W1" "D1"
        [[Byte.x01; Byte.x02; Byte.x03]] "alice";
      ToRoomEmit "workspace:W1:sync" "space:broadcast-doc-updates"
        (JObj [("spaceType", JStr "workspace"); ("spaceId", JStr "W1");
               ("docId", JStr "D1"); ("updates", JArr [JStr "AQID"]);
               ("timestamp", JNum 1)]);
      ToRoomEmit "workspace:W1:sync" "space:broadcast-doc-update"
        (JObj [("spaceType", JStr "workspace"); ("spaceId", JStr "W1");
               ("docId", JStr "D1"); ("update", JStr "AQID");
               ("timestamp", JNum 1); ("editor", JStr "alice")]) ].
Proof. by vm_compute. Qed.

(** C1, at concrete inputs: bob, no member of W1, is denied; alice is
    denied bob's userspace; alice's join of W1 puts her connection in the
    room; her second join returns at once. *)
Lemma join_access_control_witness :
  join open_env Workspace "bob" "W1" None fresh =
    (Err (SpaceAccessDenied "W1"),
     {| id := "c1"; rooms := rooms fresh;
        trace := [IsWorkspaceMember "W1" "bob" collaborator] |})
  /\ join open_env Userspace "alice" "bob" None fresh =
       (Err (SpaceAccessDenied "bob"), fresh)
  /\ room Workspace "W1" None
       ∈ rooms (snd (join open_env Workspace "alice" "W1" None fresh))
  /\ join open_env Workspace "alice" "W1" None joined = (Ok tt, joined).
Proof.
  split; [|split; [|split]].
  - apply (join_access_control open_env Workspace "bob" "W1" None fresh).
    + apply not_in_rooms. by vm_compute.
    + reflexivity.
  - apply (join_access_control open_env Workspace "alice" "bob" None fresh).
    + apply not_in_rooms. by vm_compute.
    + discriminate.
  - apply (join_access_control open_env Workspace "alice" "W1" None fresh).
    by vm_compute.
  - apply (join_access_control open_env Workspace "alice" "W1" None joined).
    apply in_rooms. by vm_compute.
Defined.

(** C1 as stated fails: alice's connection joined W1 while she was a
    member; after her membership is revoked, a join of W1 on that
    connection is not denied, it returns normally without a check. *)
Lemma join_of_non_member_not_denied :
  isWorkspaceMember revoked_env "W1" "alice" collaborator = false
  /\ join revoked_env Workspace "alice" "W1" None joined = (Ok tt, joined)
  /\ fst (join revoked_env Workspace "alice" "W1" None joined)
       <> Err (SpaceAccessDenied "W1").
Proof.
  split; [reflexivity|].
  assert (H : join revoked_env Workspace "alice" "W1" None joined
              = (Ok tt, joined)).
  { apply join_in, in_rooms. by vm_compute. }
  split; [exact H|]. by rewrite H.
Qed.

(** C2, at concrete inputs: on a connection that joined nothing. *)
Lemma not_in_space_guards_witness :
  push open_env Workspace "W1" "D1" [[Byte.x01]] "alice" fresh =
    (Err (NotInSpace "W1"), fresh)
  /\ delete Workspace "W1" "D1" fresh = (Err (NotInSpace "W1"), fresh)
  /\ getTimestamps open_env Workspace "W1" None fresh =
       (Err (NotInSpace "W1"), fresh)
  /\ diff open_env Userspace "alice" "D1" None fresh =
       (Err (NotInSpace "alice"), fresh)
  /\ onLoadSpaceDoc open_env (load "D1") fresh =
       (Err (NotInSpace "W1"), fresh).
Proof.
  assert (HW : room Workspace "W1" None ∉ rooms fresh).
  { apply not_in_rooms. by vm_compute. }
  assert (HU : room Userspace "alice" None ∉ rooms fresh).
  { apply not_in_rooms. by vm_compute. }
  destruct (not_in_space_guards open_env Workspace "W1" fresh HW)
    as (Hpush & Hdelete & Hts & _ & Hload & _).
  destruct (not_in_space_guards open_env Userspace "alice" fresh HU)
    as (_ & _ & _ & Hdiff & _).
  split; [apply Hpush|]. split; [apply Hdelete|]. split; [apply Hts|].
  split; [by apply Hdiff|]. apply (Hload "D1" None).
Defined.

(** C2 as stated fails for [diff] of the workspace adapter: on a
    connection that is not in the sync room of W1 it does not throw, it
    asks the doc reader. *)
Lemma workspace_diff_without_join :
  (room Workspace "W1" None ∉ rooms fresh)
  /\ fst (diff open_env Workspace "W1" "D1" None fresh) = Ok None
  /\ trace (snd (diff open_env Workspace "W1" "D1" None fresh)) =
       [ReaderGetDocDiff "W1" "D1" None]
  /\ fst (diff open_env Workspace "W1" "D1" None fresh)
       <> Err (NotInSpace "W1").
Proof.
  split; [apply not_in_rooms; by vm_compute|]. by vm_compute.
Qed.

(** C3, at concrete inputs: with the check on, a join that declares
    0.18.0 to a server at 0.19.0 is rejected with one notification; with
    the check off, a join that declares no version goes through. *)
Lemma version_gate_witness :
  (fst (onJoinSpace strict_env "alice" (join_W1 (Some "0.18.0")) fresh) =
     Err (VersionRejected "0.18.0" "0.19.0")
   /\ length (notifications
                (made fresh
                   (snd (onJoinSpace strict_env "alice"
                           (join_W1 (Some "0.18.0")) fresh)))) = 1
   /\ rooms (snd (onJoinSpace strict_env "alice"
                    (join_W1 (Some "0.18.0")) fresh)) = rooms fresh)
  /\ (fst (onJoinSpace open_env "alice" (join_W1 None) fresh) =
        Ok (JObj [("data", JObj [("clientId", JStr "c1");
                                 ("success", JBool true)])])
      /\ notifications
           (made fresh (snd (onJoinSpace open_env "alice" (join_W1 None) fresh)))
         = []).
Proof.
  destruct (version_gate strict_env "alice" (join_W1 (Some "0.18.0")) fresh)
    as [Hon _].
  destruct (version_gate open_env "alice" (join_W1 None) fresh)
    as [_ Hoff].
  specialize (Hon eq_refl ltac:(discriminate)) as (Hrun & Hone & Hrooms).
  specialize (Hoff eq_refl) as (Hrun' & _ & Hnone).
  split.
  - split; [by rewrite Hrun|]. split; [exact Hone|exact Hrooms].
  - split; [by vm_compute|exact Hnone].
Defined.

(** C4, at a concrete input: alice joins W1 twice. *)
Lemma join_twice_witness :
  rooms (snd (join open_env Workspace "alice" "W1" None joined)) = rooms joined
  /\ join open_env Workspace "alice" "W1" None joined = (Ok tt, joined)
  /\ access_checks
       (made joined (snd (join open_env Workspace "alice" "W1" None joined)))
     = [].
Proof.
  destruct (join_twice open_env Workspace "alice" "W1" None fresh)
    as [Hrooms Hsecond].
  specialize (Hsecond ltac:(by vm_compute)) as [Hnoop Hchecks].
  split; [exact Hrooms|]. split; [exact Hnoop|exact Hchecks].
Defined.

(** C4 as stated fails: bob is no member of W1, his first join is denied
    and his second join, with the same arguments, checks the access
    again. *)
Lemma second_join_checks_again :
  fst (join open_env Workspace "bob" "W1" None fresh) =
    Err (SpaceAccessDenied "W1")
  /\ access_checks
       (made denied (snd (join open_env Workspace "bob" "W1" None denied))) =
       [IsWorkspaceMember "W1" "bob" collaborator]
  /\ access_checks
       (made denied (snd (join open_env Workspace "bob" "W1" None denied)))
     <> [].
Proof. by vm_compute. Qed.

(** C5, at a concrete input: the sync rooms of W1 and W2. *)
Lemma room_name_witness :
  room Workspace "W1" (Some (RoomType_str Sync)) <>
    room Workspace "W2" (Some (RoomType_str Sync)).
Proof.
  destruct (room_name Workspace) as (_ & _ & Hinj).
  apply (Hinj "W1" "W2" Sync Sync); [reflexivity|reflexivity|discriminate].
Defined.

(** C5 as stated fails: a space id may hold the separator, and then two
    different pairs compose the same name. *)
Lemma room_names_collide :
  ("a", RoomType_str (Awareness "b:c")) <> ("a:b", RoomType_str (Awareness "c"))
  /\ room Workspace "a" (Some (RoomType_str (Awareness "b:c"))) =
       room Workspace "a:b" (Some (RoomType_str (Awareness "c")))
  /\ room Workspace "a" (Some (RoomType_str (Awareness "b:c"))) =
       "workspace:a:b:c:awareness".
Proof. split; [discriminate|]. by vm_compute. Qed.

(** C6, at concrete inputs: after alice pushed the bytes 1, 2, 3 to D1,
    loading D1 replies with them in base64 and loading D2 throws. *)
Lemma load_doc_witness :
  fst (onLoadSpaceDoc open_env (load "D2") pushed_D1) =
    Err (DocNotFound "W1" "D2")
  /\ fst (onLoadSpaceDoc open_env (load "D1") pushed_D1) =
       Ok (JObj [("data", JObj [("missing", JStr "AQID");
                                ("state", JStr "AQID");
                                ("timestamp", JNum 4)])]).
Proof.
  assert (Hin : room Workspace "W1" None ∈ rooms pushed_D1).
  { apply in_rooms. by vm_compute. }
  destruct (load_doc open_env (load "D2") pushed_D1 Hin) as [Hnull _].
  destruct (load_doc open_env (load "D1") pushed_D1 Hin) as [_ Hdoc].
  split.
  - erewrite Hnull; [reflexivity|].
    apply injective_projections; by vm_compute.
  - erewrite Hdoc; [|apply injective_projections; by vm_compute].
    by vm_compute.
Defined.

(** C9, at concrete inputs: the deprecated push on a joined workspace
    and on a joined userspace. *)
Lemma legacy_server_updates_witness :
  broadcasts "server-updates"
    (made joined
       (snd (onReceiveDocUpdates open_env "alice"
               (push_updates Workspace "W1") joined))) =
    [("workspace:W1:sync",
      JObj [("workspaceId", JStr "W1"); ("guid", JStr "D1");
            ("updates", JArr [JStr "AQID"]); ("timestamp", JNum 1)])]
  /\ broadcasts "server-updates"
       (made joined_own
          (snd (onReceiveDocUpdates open_env "alice"
                  (push_updates Userspace "alice") joined_own))) = []
  /\ onReceiveDocUpdates open_env "alice" (push_updates Workspace "W1") fresh
     = (Err (NotInSpace "W1"), fresh).
Proof.
  destruct (legacy_server_updates open_env "alice"
              (push_updates Workspace "W1") joined) as [Hw _].
  destruct (legacy_server_updates open_env "alice"
              (push_updates Userspace "alice") joined_own) as [Hu _].
  destruct (legacy_server_updates open_env "alice"
              (push_updates Workspace "W1") fresh) as [_ Hout].
  specialize (Hw ltac:(apply in_rooms; by vm_compute)) as (_ & _ & Hw & _).
  specialize (Hu ltac:(apply in_rooms; by vm_compute)) as (_ & _ & _ & Hu).
  specialize (Hout ltac:(apply not_in_rooms; by vm_compute)) as [Hout _].
  split; [|split].
  - rewrite (Hw eq_refl). by vm_compute.
  - destruct (Hu eq_refl) as (c & -> & Hc).
    destruct c; try discriminate Hc; reflexivity.
  - exact Hout.
Defined.

(** C9 as stated fails: on a connection that did not join W1 the push
    throws, and the request, though for a workspace, broadcasts no
    [server-updates]. *)
Lemma no_legacy_broadcast_without_join :
  PushDocUpdatesMessage.spaceType (push_updates Workspace "W1") = Workspace
  /\ fst (onReceiveDocUpdates open_env "alice"
            (push_updates Workspace "W1") fresh) = Err (NotInSpace "W1")
  /\ broadcasts "server-updates"
       (made fresh
          (snd (onReceiveDocUpdates open_env "alice"
                  (push_updates Workspace "W1") fresh))) = [].
Proof. by vm_compute. Qed.

(** C10, at concrete inputs: alice on her own userspace and on bob's,
    as owner and with the role left out. *)
Lemma userspace_access_ignores_role_witness :
  assertAccessible open_env Userspace "alice" "alice" (Some owner) fresh =
    assertAccessible open_env Userspace "alice" "alice" None fresh
  /\ assertAccessible open_env Userspace "alice" "alice" (Some owner) fresh =
       (Ok tt, fresh)
  /\ assertAccessible open_env Userspace "bob" "alice" (Some owner) fresh =
       (Err (SpaceAccessDenied "bob"), fresh).
Proof.
  destruct (userspace_access_ignores_role open_env "alice" "alice"
              (Some owner) None fresh) as (Hsame & Hown & _).
  destruct (userspace_access_ignores_role open_env "bob" "alice"
              (Some owner) None fresh) as (_ & _ & Hother).
  split; [exact Hsame|]. split; [by apply Hown|].
  apply Hother. discriminate.
Defined.

End Runs.

(** * More of the gateway: leaving, awareness, the deprecated surface *)

Section Sessions.

Context {WorkspaceRole : Type} (env : Env WorkspaceRole).

#[local] Abbreviation Socket := (Socket WorkspaceRole).

Lemma leave_out this spaceId roomType (w : Socket) :
  room this spaceId roomType ∉ rooms w ->
  leave this spaceId roomType w = (Ok tt, w).
Proof.
  intros H. unfold leave, in_, bind. by rewrite client_rooms_has_out.
Qed.

Lemma leave_in this spaceId roomType (w : Socket) :
  room this spaceId roomType ∈ rooms w ->
  leave this spaceId roomType w =
    (Ok tt,
     {| id := id w;
        rooms := rooms w ∖ {[room this spaceId roomType]};
        trace := trace w |}).
Proof.
  intros H. unfold leave, in_, bind. by rewrite client_rooms_has_in.
Qed.

Lemma join_ok_in this userId spaceId roomType (w : Socket) :
  fst (join env this userId spaceId roomType w) = Ok tt ->
  room this spaceId roomType
    ∈ rooms (snd (join env this userId spaceId roomType w)).
Proof.
  intros Hok. rewrite join_rooms, Hok.
  apply elem_of_union_l. by apply elem_of_singleton.
Qed.

Lemma leave_rooms this spaceId roomType (w : Socket) :
  rooms (snd (leave this spaceId roomType w)) =
    rooms w ∖ {[room this spaceId roomType]}.
Proof.
  destruct (decide (room this spaceId roomType ∈ rooms w)) as [Hin|Hout].
  - by rewrite leave_in.
  - rewrite leave_out by done. simpl. apply set_eq. intros r.
    rewrite elem_of_difference, elem_of_singleton.
    split; [|tauto]. intros Hr. split; [done|]. by intros ->.
Qed.

Lemma leave_trace this spaceId roomType (w : Socket) :
  trace (snd (leave this spaceId roomType w)) = trace w.
Proof.
  destruct (decide (room this spaceId roomType ∈ rooms w)) as [Hin|Hout].
  - by rewrite leave_in.
  - by rewrite leave_out.
Qed.

Lemma leave_not_in this spaceId roomType (w : Socket) :
  room this spaceId roomType ∉ rooms (snd (leave this spaceId roomType w)).
Proof.
  rewrite leave_rooms, elem_of_difference, elem_of_singleton. tauto.
Qed.

(** X1: [leave] never throws.  It takes the connection out of the room,
    leaves every other room and the trace as they were, and on a
    connection that is not in the room it changes nothing at all. *)
Theorem leave_never_fails this spaceId roomType (w : Socket) :
  fst (leave this spaceId roomType w) = Ok tt
  /\ (room this spaceId roomType ∉ rooms (snd (leave this spaceId roomType w)))
  /\ (forall r, r <> room this spaceId roomType ->
        (r ∈ rooms (snd (leave this spaceId roomType w)) <-> r ∈ rooms w))
  /\ trace (snd (leave this spaceId roomType w)) = trace w
  /\ (room this spaceId roomType ∉ rooms w ->
      leave this spaceId roomType w = (Ok tt, w)).
Proof.
  destruct (decide (room this spaceId roomType ∈ rooms w)) as [Hin|Hout].
  - rewrite leave_in by done. simpl. repeat split; try done.
    + rewrite elem_of_difference, elem_of_singleton. tauto.
    + rewrite elem_of_difference. tauto.
    + intros Hr. apply elem_of_difference. by rewrite elem_of_singleton.
  - rewrite leave_out by done. simpl. repeat split; try done.
Qed.

(** X2: a join that put the connection into a room it was not in,
    followed by the leave of the same room, gives back the rooms the
    connection had. *)
Theorem join_leave_round_trip this userId spaceId roomType (w : Socket) :
  room this spaceId roomType ∉ rooms w ->
  fst (join env this userId spaceId roomType w) = Ok tt ->
  rooms (snd (leave this spaceId roomType
                (snd (join env this userId spaceId roomType w)))) = rooms w.
Proof.
  intros Hout Hok.
  rewrite leave_in by (by apply join_ok_in).
  simpl. rewrite join_rooms, Hok.
  apply set_eq. intros r.
  rewrite elem_of_difference, elem_of_union, !elem_of_singleton.
  split; [intros [[->|Hr] Hne]; [done|done]|].
  intros Hr. split; [by right|]. intros ->. done.
Qed.

(** X4: a join changes the membership of no room but its own, whether it
    returns or throws. *)
Theorem join_frame this userId spaceId roomType (w : Socket) (r : string) :
  r <> room this spaceId roomType ->
  (r ∈ rooms (snd (join env this userId spaceId roomType w)) <-> r ∈ rooms w).
Proof.
  intros Hne. rewrite join_rooms.
  destruct (fst (join env this userId spaceId roomType w)); [|done].
  rewrite elem_of_union, elem_of_singleton. tauto.
Qed.

(** X17: the only call a join makes to the outside is the membership
    check of the workspace adapter, made once when the connection is not
    yet in the room; the userspace adapter calls nothing.  A join never
    reaches a storage and never emits. *)
Theorem join_calls this userId spaceId roomType (w : Socket) :
  made w (snd (join env this userId spaceId roomType w)) =
    (if bool_decide (room this spaceId roomType ∈ rooms w) then []
     else match this with
          | Workspace => [IsWorkspaceMember spaceId userId (Collaborator env)]
          | Userspace => []
          end)
  /\ storage_calls (made w (snd (join env this userId spaceId roomType w))) = []
  /\ notifications (made w (snd (join env this userId spaceId roomType w))) = []
  /\ (forall event,
        broadcasts event
          (made w (snd (join env this userId spaceId roomType w))) = []).
Proof.
  rewrite (made_app w _ _ (join_trace env this userId spaceId roomType w)).
  split; [done|].
  case_bool_decide; [done|]. by destruct this.
Qed.

(** X18: leaving a workspace room and joining it again runs the access
    check again, so a user who is no longer a member is denied. *)
Theorem rejoin_checks_access userId spaceId roomType (w : Socket) :
  isWorkspaceMember env spaceId userId (Collaborator env) = false ->
  fst (join env Workspace userId spaceId roomType
         (snd (leave Workspace spaceId roomType w))) =
    Err (SpaceAccessDenied spaceId)
  /\ access_checks
       (made (snd (leave Workspace spaceId roomType w))
          (snd (join env Workspace userId spaceId roomType
                  (snd (leave Workspace spaceId roomType w))))) =
     [IsWorkspaceMember spaceId userId (Collaborator env)].
Proof.
  intros Hno.
  pose proof (leave_not_in Workspace spaceId roomType w) as Hout.
  set (w' := snd (leave Workspace spaceId roomType w)) in *.
  rewrite join_out by done.
  unfold assertAccessible, WorkspaceSyncAdapter_assertAccessible, bind, call.
  simpl. rewrite Hno. simpl. split; [done|].
  erewrite made_app; [|reflexivity]. reflexivity.
Qed.

(** X6: once a join of the sync room returned, a push on that connection
    passes the guard: it makes the one call to the storage of the adapter
    and returns the timestamp storage answers. *)
Theorem join_then_push this userId spaceId docId updates editorId
    (w : Socket) :
  fst (join env this userId spaceId None w) = Ok tt ->
  let joined := snd (join env this userId spaceId None w) in
  push env this spaceId docId updates editorId joined =
    (Ok (pushDocUpdates env this (trace joined) spaceId
           (storage_docId env this spaceId docId) updates editorId),
     {| id := id joined; rooms := rooms joined;
        trace := trace joined ++
          [PushDocUpdates this spaceId (storage_docId env this spaceId docId)
             updates editorId] |}).
Proof.
  intros Hok joined. apply push_in. by apply join_ok_in.
Qed.

(** *** Which room guards storage *)

Lemma last_char_append (a b : string) :
  b <> "" -> last_char (a +:+ b) = last_char b.
Proof.
  intros Hb. induction a as [|c a IH]; [done|].
  change (String c a +:+ b) with (String c (a +:+ b)).
  destruct (a +:+ b) as [|c' rest] eqn:E.
  - destruct a; simpl in E; [done|discriminate].
  - simpl. simpl in IH. exact IH.
Qed.

Lemma last_char_room this spaceId (roomType : string) :
  roomType <> "" ->
  last_char (room this spaceId (Some roomType)) = last_char roomType.
Proof.
  intros Hr. unfold room, Room.
  rewrite !last_char_append; try done.
  destruct spaceId; discriminate.
Qed.

Lemma last_char_RoomType (r : RoomType) :
  RoomType_str r <> ""
  /\ last_char (RoomType_str r) =
       Some (match r with Sync => "c" | Awareness _ => "s" end)%char.
Proof.
  destruct r as [|d]; simpl; [done|]. split.
  - destruct d; discriminate.
  - by rewrite last_char_append.
Qed.

Lemma sync_room_not_awareness this spaceId this' spaceId' docId :
  room this spaceId None <> room this' spaceId' (Some (docId +:+ ":awareness")).
Proof.
  intros H. apply (f_equal last_char) in H.
  change (room this spaceId None) with (room this spaceId (Some "sync")) in H.
  destruct (last_char_RoomType (Awareness docId)) as [Hne Hlast].
  simpl in Hne, Hlast.
  rewrite !last_char_room in H by done.
  rewrite Hlast in H. discriminate H.
Qed.

(** X5: the name of the sync room of a space is the name of no other
    room: a room with that name is the sync room of the same space type
    and the same space id.  So the guard of the storage operations is
    passed only by joining that very room, whatever [:] the ids hold. *)
Theorem sync_room_unique this spaceId this' spaceId' (r : RoomType) :
  room this spaceId None = room this' spaceId' (Some (RoomType_str r)) ->
  this = this' /\ spaceId = spaceId' /\ r = Sync.
Proof.
  intros H. destruct r as [|d].
  - unfold room, Room in H.
    destruct this, this'; simpl in H; try discriminate H;
      injection H as H; by rewrite (append_cancel_r ":sync" _ _ H).
  - by apply sync_room_not_awareness in H.
Qed.

(** The rooms a versioned join leaves, and its reply. *)
Lemma versioned_join_outcome version this userId spaceId roomType
    (w : Socket) :
  let run :=
    (assertVersion env version ;;
     join env this userId spaceId roomType ;;
     let* clientId := client_id in
     ret (JObj [("data", JObj [("clientId", JStr clientId);
                               ("success", JBool true)])])) w in
  rooms (snd run) =
    match fst run with
    | Ok _ => {[room this spaceId roomType]} ∪ rooms w
    | Err _ => rooms w
    end
  /\ (forall reply,
        fst run = Ok reply ->
        reply = JObj [("data", JObj [("clientId", JStr (id w));
                                     ("success", JBool true)])]).
Proof.
  intros run. subst run. unfold bind at 1. unfold assertVersion.
  destruct (syncClientVersionCheck env
            && version_differs version (AFFiNE_version env)).
  - unfold bind, client_emit, call, throw. simpl. by split.
  - unfold ret at 1. unfold bind, client_id, ret.
    pose proof (join_rooms env this userId spaceId roomType w) as Hr.
    pose proof (join_trace env this userId spaceId roomType w) as Ht.
    destruct (join env this userId spaceId roomType w) as [[[]|e] w1] eqn:Hj;
      simpl in *; [|by split].
    split; [done|]. intros reply [= <-].
    assert (Hid : id w1 = id w); [|by rewrite Hid].
    revert Hj. unfold join, in_, bind, client_rooms_has.
    destruct (bool_decide (room this spaceId roomType ∈ rooms w)).
    + by intros [= <-].
    + destruct this; unfold assertAccessible, bind, call, client_join,
        set_rooms, WorkspaceSyncAdapter_assertAccessible,
        UserspaceSyncAdapter_assertAccessible, throw, ret; simpl.
      * destruct (isWorkspaceMember env spaceId userId (Collaborator env));
          simpl; [by intros [= <-]|discriminate].
      * destruct (String.eqb spaceId userId); simpl;
          [by intros [= <-]|discriminate].
Qed.

(** X19: a join-space request that replies has put the connection in the
    sync room of the space and replies with the id of the connection; one
    that throws, whatever the error, leaves the rooms as they were. *)
Theorem join_space_outcome userId (message : JoinSpaceMessage.t) (w : Socket) :
  rooms (snd (onJoinSpace env userId message w)) =
    match fst (onJoinSpace env userId message w) with
    | Ok _ =>
        {[room (JoinSpaceMessage.spaceType message)
            (JoinSpaceMessage.spaceId message) None]} ∪ rooms w
    | Err _ => rooms w
    end
  /\ (forall reply,
        fst (onJoinSpace env userId message w) = Ok reply ->
        reply = JObj [("data", JObj [("clientId", JStr (id w));
                                     ("success", JBool true)])]).
Proof.
  apply (versioned_join_outcome (JoinSpaceMessage.clientVersion message)
           (JoinSpaceMessage.spaceType message) userId
           (JoinSpaceMessage.spaceId message) None w).
Qed.

(** X7: joining an awareness room gives no access to storage: a
    connection that is in the sync room of no space before a
    join-awareness request is in none after it, so a push on it still
    throws [NotInSpace]. *)
Theorem awareness_join_gives_no_sync_access userId
    (message : JoinSpaceAwarenessMessage.t) this spaceId (w : Socket) :
  room this spaceId None ∉ rooms w ->
  let w' := snd (onJoinAwareness env userId message w) in
  (room this spaceId None ∉ rooms w')
  /\ (forall docId updates editorId,
        push env this spaceId docId updates editorId w' =
          (Err (NotInSpace spaceId), w')).
Proof.
  intros Hout w'.
  assert (Hout' : room this spaceId None ∉ rooms w').
  { subst w'.
    destruct (versioned_join_outcome
                (JoinSpaceAwarenessMessage.clientVersion message)
                (JoinSpaceAwarenessMessage.spaceType message) userId
                (JoinSpaceAwarenessMessage.spaceId message)
                (Some (JoinSpaceAwarenessMessage.docId message +:+ ":awareness"))
                w) as [Hr _].
    unfold onJoinAwareness, selectAdapter. rewrite Hr.
    match goal with |- context [match ?x with _ => _ end] => destruct x end;
      [|done].
    rewrite elem_of_union, elem_of_singleton. intros [Heq|Hin]; [|done].
    by apply sync_room_not_awareness in Heq. }
  split; [done|]. intros. by apply push_out.
Qed.

(** *** Leaving a space *)

Lemma onLeaveSpace_run (message : LeaveSpaceMessage.t) (w : Socket) :
  onLeaveSpace message w =
    (Ok (JObj [("data", JObj [("clientId", JStr (id w));
                              ("success", JBool true)])]),
     snd (leave (LeaveSpaceMessage.spaceType message)
            (LeaveSpaceMessage.spaceId message) None w)).
Proof.
  unfold onLeaveSpace, selectAdapter, bind, client_id, ret.
  destruct (decide (room (LeaveSpaceMessage.spaceType message)
                      (LeaveSpaceMessage.spaceId message) None ∈ rooms w)).
  - by rewrite leave_in.
  - by rewrite leave_out.
Qed.

(** X3: a leave-space request always replies, also on a connection that
    never joined; it calls nothing outside.  After it the connection is
    out of the sync room of the space, and push-doc-update, load-doc,
    delete-doc and load-doc-timestamps for that space throw [NotInSpace]
    without reaching a storage. *)
Theorem leave_space_then_guarded (message : LeaveSpaceMessage.t)
    (w : Socket) :
  let spaceType := LeaveSpaceMessage.spaceType message in
  let spaceId := LeaveSpaceMessage.spaceId message in
  let w' := snd (onLeaveSpace message w) in
  fst (onLeaveSpace message w) =
    Ok (JObj [("data", JObj [("clientId", JStr (id w));
                             ("success", JBool true)])])
  /\ trace w' = trace w
  /\ (room spaceType spaceId None ∉ rooms w')
  /\ (forall userId docId update,
        onReceiveDocUpdate env userId
          {| PushDocUpdateMessage.spaceType := spaceType;
             PushDocUpdateMessage.spaceId := spaceId;
             PushDocUpdateMessage.docId := docId;
             PushDocUpdateMessage.update := update |} w' =
          (Err (NotInSpace spaceId), w'))
  /\ (forall docId stateVector,
        onLoadSpaceDoc env
          {| LoadDocMessage.spaceType := spaceType;
             LoadDocMessage.spaceId := spaceId;
             LoadDocMessage.docId := docId;
             LoadDocMessage.stateVector := stateVector |} w' =
          (Err (NotInSpace spaceId), w'))
  /\ (forall docId,
        onDeleteSpaceDoc
          {| DeleteDocMessage.spaceType := spaceType;
             DeleteDocMessage.spaceId := spaceId;
             DeleteDocMessage.docId := docId |} w' =
          (Err (NotInSpace spaceId), w'))
  /\ (forall timestamp,
        onLoadDocTimestamps env
          {| LoadDocTimestampsMessage.spaceType := spaceType;
             LoadDocTimestampsMessage.spaceId := spaceId;
             LoadDocTimestampsMessage.timestamp := timestamp |} w' =
          (Err (NotInSpace spaceId), w')).
Proof.
  intros spaceType spaceId w'. subst w'. rewrite onLeaveSpace_run.
  fold spaceType spaceId. simpl.
  pose proof (leave_not_in spaceType spaceId None w) as Hout.
  pose proof (leave_trace spaceType spaceId None w) as Htrace.
  set (w' := snd (leave spaceType spaceId None w)) in *.
  split; [done|]. split; [done|]. split; [done|]. repeat split.
  - intros. by apply onReceiveDocUpdate_out.
  - intros. unfold onLoadSpaceDoc, selectAdapter. simpl.
    unfold bind at 1. by rewrite assertIn_out.
  - intros. unfold onDeleteSpaceDoc, selectAdapter, delete. simpl.
    unfold bind. by rewrite assertIn_out.
  - intros. unfold onLoadDocTimestamps, selectAdapter, getTimestamps. simpl.
    unfold bind. by rewrite assertIn_out.
Qed.

(** *** Deleting a doc and loading the timestamps *)

(** X8: a delete-doc request on a connection in the sync room of the
    space makes one [deleteDoc] call to the storage of the space type,
    with the doc id as the request gives it (neither adapter translates
    it, the workspace adapter included) and replies with nothing; on any
    other connection it throws [NotInSpace] and calls nothing. *)
Theorem delete_doc (message : DeleteDocMessage.t) (w : Socket) :
  let spaceType := DeleteDocMessage.spaceType message in
  let spaceId := DeleteDocMessage.spaceId message in
  let docId := DeleteDocMessage.docId message in
  (room spaceType spaceId None ∈ rooms w ->
   onDeleteSpaceDoc message w =
     (Ok JUndefined,
      {| id := id w; rooms := rooms w;
         trace := trace w ++ [DeleteDoc spaceType spaceId docId] |}))
  /\ (room spaceType spaceId None ∉ rooms w ->
      onDeleteSpaceDoc message w = (Err (NotInSpace spaceId), w)).
Proof.
  intros spaceType spaceId docId.
  unfold onDeleteSpaceDoc, selectAdapter, delete.
  fold spaceType spaceId docId. split; intros H.
  - unfold bind. by rewrite assertIn_in.
  - unfold bind. by rewrite assertIn_out.
Qed.

(** X9: a load-doc-timestamps request on a connection in the sync room
    asks the storage of the space type once and replies with the mapping
    it answers, and with the empty object when storage answers null; on
    any other connection it throws [NotInSpace] and asks nothing. *)
Theorem load_doc_timestamps (message : LoadDocTimestampsMessage.t)
    (w : Socket) :
  let spaceType := LoadDocTimestampsMessage.spaceType message in
  let spaceId := LoadDocTimestampsMessage.spaceId message in
  let timestamp := LoadDocTimestampsMessage.timestamp message in
  let stats := getSpaceDocTimestamps env spaceType (trace w) spaceId timestamp in
  (room spaceType spaceId None ∈ rooms w ->
   made w (snd (onLoadDocTimestamps env message w)) =
     [GetSpaceDocTimestamps spaceType spaceId timestamp]
   /\ (stats = None ->
       fst (onLoadDocTimestamps env message w) = Ok (JObj [("data", JObj [])]))
   /\ (forall mapping,
         stats = Some mapping ->
         fst (onLoadDocTimestamps env message w) =
           Ok (JObj [("data",
                      JObj (map (fun kv => (fst kv, JNum (snd kv))) mapping))])))
  /\ (room spaceType spaceId None ∉ rooms w ->
      onLoadDocTimestamps env message w = (Err (NotInSpace spaceId), w)).
Proof.
  intros spaceType spaceId timestamp stats.
  unfold onLoadDocTimestamps, selectAdapter, getTimestamps.
  fold spaceType spaceId timestamp. split; intros H.
  - unfold bind. rewrite assertIn_in by done.
    unfold call, ret. simpl. fold stats.
    split; [by erewrite made_app|].
    split; [by intros ->|]. by intros mapping ->.
  - unfold bind. by rewrite assertIn_out.
Qed.

(** *** Awareness *)

(** X10: a load-awarenesses request on a connection in the awareness room
    of the doc broadcasts [space:collect-awareness] to that room and, for
    a workspace only, the legacy [new-client-awareness-init]; it replies
    with the id of the connection and calls no storage and no permission
    service.  On a connection that is not in that room (being in the sync
    room does not count) it throws [NotInSpace] and broadcasts nothing. *)
Theorem load_awareness (message : LoadSpaceAwarenessesMessage.t)
    (w : Socket) :
  let spaceType := LoadSpaceAwarenessesMessage.spaceType message in
  let spaceId := LoadSpaceAwarenessesMessage.spaceId message in
  let docId := LoadSpaceAwarenessesMessage.docId message in
  let awareness := room spaceType spaceId (Some (docId +:+ ":awareness")) in
  (awareness ∈ rooms w ->
   onLoadAwareness message w =
     (Ok (JObj [("data", JObj [("clientId", JStr (id w))])]),
      {| id := id w; rooms := rooms w;
         trace := trace w ++
           [ToRoomEmit awareness "space:collect-awareness"
              (JObj [("spaceType", JStr (SpaceType_str spaceType));
                     ("spaceId", JStr spaceId);
                     ("docId", JStr docId)])] ++
           match spaceType with
           | Workspace =>
               [ToRoomEmit awareness "new-client-awareness-init" JUndefined]
           | Userspace => []
           end |}))
  /\ (awareness ∉ rooms w ->
      onLoadAwareness message w = (Err (NotInSpace spaceId), w)).
Proof.
  intros spaceType spaceId docId awareness.
  unfold onLoadAwareness, selectAdapter.
  fold spaceType spaceId docId. fold awareness. split; intros H.
  - unfold bind at 1. rewrite assertIn_in by done.
    unfold bind, client_to_emit, call, client_id, ret.
    destruct spaceType; simpl; by rewrite <- ?app_assoc.
  - unfold bind at 1. by rewrite assertIn_out.
Qed.

(** X11: an update-awareness request on a connection in the awareness
    room of the doc broadcasts the message as received, as
    [space:broadcast-awareness-update], to that room and, for a workspace
    only, the legacy [server-awareness-broadcast] with the flat
    [workspaceId] and the same update; it replies with the empty object.
    On a connection that is not in that room it throws [NotInSpace] and
    broadcasts nothing. *)
Theorem update_awareness (message : UpdateAwarenessMessage.t) (w : Socket) :
  let spaceType := UpdateAwarenessMessage.spaceType message in
  let spaceId := UpdateAwarenessMessage.spaceId message in
  let docId := UpdateAwarenessMessage.docId message in
  let awarenessUpdate := UpdateAwarenessMessage.awarenessUpdate message in
  let awareness := room spaceType spaceId (Some (docId +:+ ":awareness")) in
  (awareness ∈ rooms w ->
   onUpdateAwareness message w =
     (Ok (JObj []),
      {| id := id w; rooms := rooms w;
         trace := trace w ++
           [ToRoomEmit awareness "space:broadcast-awareness-update"
              (JObj [("spaceType", JStr (SpaceType_str spaceType));
                     ("spaceId", JStr spaceId);
                     ("docId", JStr docId);
                     ("awarenessUpdate", JStr awarenessUpdate)])] ++
           match spaceType with
           | Workspace =>
               [ToRoomEmit awareness "server-awareness-broadcast"
                  (JObj [("workspaceId", JStr spaceId);
                         ("awarenessUpdate", JStr awarenessUpdate)])]
           | Userspace => []
           end |}))
  /\ (awareness ∉ rooms w ->
      onUpdateAwareness message w = (Err (NotInSpace spaceId), w)).
Proof.
  intros spaceType spaceId docId awarenessUpdate awareness.
  unfold onUpdateAwareness, selectAdapter, UpdateAwarenessMessage_fields.
  fold spaceType spaceId docId awarenessUpdate. fold awareness.
  split; intros H.
  - unfold bind at 1. rewrite assertIn_in by done.
    unfold bind, client_to_emit, call, ret.
    destruct spaceType; simpl; by rewrite <- ?app_assoc.
  - unfold bind at 1. by rewrite assertIn_out.
Qed.

(** X14: the deprecated awareness surface works on the room
    [workspace:<W>:<W>:awareness]: after a [client-handshake-awareness]
    for workspace W replied, an [awareness-update] for W broadcasts the
    update to that room under both event names, and an [awareness-init]
    broadcasts both collect events to it. *)
Theorem legacy_awareness_flow userId W version awarenessUpdate reply
    (w : Socket) :
  fst (handleClientHandshakeAwareness env userId W version w) = Ok reply ->
  let w1 := snd (handleClientHandshakeAwareness env userId W version w) in
  let awareness := "workspace:" +:+ W +:+ ":" +:+ W +:+ ":awareness" in
  made w1 (snd (handleHelpGatheringAwareness W awarenessUpdate w1)) =
    [ToRoomEmit awareness "space:broadcast-awareness-update"
       (JObj [("spaceType", JStr "workspace");
              ("spaceId", JStr W);
              ("docId", JStr W);
              ("awarenessUpdate", JStr awarenessUpdate)]);
     ToRoomEmit awareness "server-awareness-broadcast"
       (JObj [("workspaceId", JStr W);
              ("awarenessUpdate", JStr awarenessUpdate)])]
  /\ fst (handleHelpGatheringAwareness W awarenessUpdate w1) = Ok (JObj [])
  /\ made w1 (snd (handleInitAwareness W w1)) =
       [ToRoomEmit awareness "space:collect-awareness"
          (JObj [("spaceType", JStr "workspace");
                 ("spaceId", JStr W);
                 ("docId", JStr W)]);
        ToRoomEmit awareness "new-client-awareness-init" JUndefined].
Proof.
  intros Hok w1 awareness.
  assert (Hin : room Workspace W (Some (W +:+ ":awareness")) ∈ rooms w1).
  { subst w1. revert Hok. unfold handleClientHandshakeAwareness.
    destruct (versioned_join_outcome version Workspace userId W
                (Some (W +:+ ":awareness")) w) as [Hr _].
    unfold onJoinAwareness, selectAdapter. simpl. rewrite Hr.
    intros ->. apply elem_of_union_l. by apply elem_of_singleton. }
  assert (Hupdate :
    handleHelpGatheringAwareness W awarenessUpdate w1 =
      (Ok (JObj []),
       {| id := id w1; rooms := rooms w1;
          trace := trace w1 ++
            [ToRoomEmit awareness "space:broadcast-awareness-update"
               (JObj [("spaceType", JStr "workspace");
                      ("spaceId", JStr W);
                      ("docId", JStr W);
                      ("awarenessUpdate", JStr awarenessUpdate)]);
             ToRoomEmit awareness "server-awareness-broadcast"
               (JObj [("workspaceId", JStr W);
                      ("awarenessUpdate", JStr awarenessUpdate)])] |})).
  { unfold handleHelpGatheringAwareness, onUpdateAwareness, selectAdapter.
    simpl. unfold bind at 1. rewrite assertIn_in by done.
    unfold bind, client_to_emit, call, ret. simpl.
    by rewrite <- app_assoc. }
  assert (Hinit :
    handleInitAwareness W w1 =
      (Ok (JObj [("data", JObj [("clientId", JStr (id w1))])]),
       {| id := id w1; rooms := rooms w1;
          trace := trace w1 ++
            [ToRoomEmit awareness "space:collect-awareness"
               (JObj [("spaceType", JStr "workspace");
                      ("spaceId", JStr W);
                      ("docId", JStr W)]);
             ToRoomEmit awareness "new-client-awareness-init"
               JUndefined] |})).
  { unfold handleInitAwareness, onLoadAwareness, selectAdapter.
    simpl. unfold bind at 1. rewrite assertIn_in by done.
    unfold bind, client_to_emit, call, client_id, ret. simpl.
    by rewrite <- app_assoc. }
  rewrite Hupdate, Hinit. simpl.
  split; [by erewrite made_app|]. split; [done|]. by erewrite made_app.
Qed.

(** *** The version check and the deprecated handshake *)

(** X13: with the version check on, [assertVersion] returns, without
    emitting, exactly for the client that declares the version of the
    server; an absent or empty version is rejected and reported as
    [unknown]. *)
Theorem version_check_exact version (w : Socket) :
  syncClientVersionCheck env = true ->
  (version = Some (AFFiNE_version env) ->
   assertVersion env version w = (Ok tt, w))
  /\ (fst (assertVersion env version w) = Ok tt ->
      version = Some (AFFiNE_version env))
  /\ (truthy version = false ->
      version <> Some (AFFiNE_version env) ->
      fst (assertVersion env version w) =
        Err (VersionRejected "unknown" (AFFiNE_version env))).
Proof.
  intros Hon. unfold assertVersion. rewrite Hon. simpl. repeat split.
  - intros ->. simpl. by rewrite String.eqb_refl.
  - destruct version as [v|]; simpl.
    + destruct (String.eqb_spec v (AFFiNE_version env)) as [->|Hne]; [done|].
      simpl. unfold bind, client_emit, call, throw. simpl. discriminate.
    + unfold bind, client_emit, call, throw. simpl. discriminate.
  - intros Hfalsy Hne. rewrite (version_differs_ne _ _ Hne).
    unfold bind, client_emit, call, throw. simpl. by rewrite Hfalsy.
Qed.

(** X12: the deprecated [client-handshake-sync] checks the version itself
    and then hands over to the join-space handler, which checks it again;
    the second check is never seen: the outcome, the notifications and
    the connection left are those of join-space for the workspace. *)
Theorem handshake_sync_is_join userId workspaceId version (w : Socket) :
  handleClientHandshakeSync env userId workspaceId version w =
    onJoinSpace env userId
      {| JoinSpaceMessage.spaceType := Workspace;
         JoinSpaceMessage.spaceId := workspaceId;
         JoinSpaceMessage.clientVersion := version |} w.
Proof.
  unfold handleClientHandshakeSync. unfold bind at 1.
  destruct (assertVersion env version w) as [[[]|e] w1] eqn:Hv.
  - assert (w1 = w) as ->; [|done].
    revert Hv. unfold assertVersion.
    destruct (syncClientVersionCheck env
              && version_differs version (AFFiNE_version env)).
    + unfold bind, client_emit, call, throw. simpl. discriminate.
    + by intros [= <-].
  - unfold onJoinSpace. simpl. unfold bind at 1. by rewrite Hv.
Qed.

(** *** Broadcasting a single update *)

(** X16: a push-doc-update request on a connection in the sync room
    stores the decoded update under the doc id of the adapter (the guid
    for a workspace) and broadcasts [space:broadcast-doc-update] to the
    sync room with the doc id and the update as the client sent them, the
    timestamp storage answered, which is also the one of the reply, and
    the pushing user as editor.  On any other connection nothing is
    stored and nothing is broadcast. *)
Theorem push_doc_update_broadcast userId (message : PushDocUpdateMessage.t)
    (w : Socket) :
  let spaceType := PushDocUpdateMessage.spaceType message in
  let spaceId := PushDocUpdateMessage.spaceId message in
  let docId := PushDocUpdateMessage.docId message in
  let update := PushDocUpdateMessage.update message in
  let timestamp :=
    pushDocUpdates env spaceType (trace w) spaceId
      (storage_docId env spaceType spaceId docId)
      [Buffer_from_base64 env update] userId in
  let calls := made w (snd (onReceiveDocUpdate env userId message w)) in
  (room spaceType spaceId None ∈ rooms w ->
   fst (onReceiveDocUpdate env userId message w) =
     Ok (JObj [("data", JObj [("accepted", JBool true);
                              ("timestamp", JNum timestamp)])])
   /\ storage_calls calls =
        [PushDocUpdates spaceType spaceId
           (storage_docId env spaceType spaceId docId)
           [Buffer_from_base64 env update] userId]
   /\ broadcasts "space:broadcast-doc-update" calls =
        [(room spaceType spaceId None,
          JObj [("spaceType", JStr (SpaceType_str spaceType));
                ("spaceId", JStr spaceId);
                ("docId", JStr docId);
                ("update", JStr update);
                ("timestamp", JNum timestamp);
                ("editor", JStr userId)])])
  /\ (room spaceType spaceId None ∉ rooms w -> calls = []).
Proof.
  intros spaceType spaceId docId update timestamp calls. subst calls.
  split; intros H.
  - rewrite (onReceiveDocUpdate_in env userId message w H).
    fold spaceType spaceId docId update timestamp. simpl.
    erewrite made_app; [|reflexivity]. by simpl.
  - rewrite (onReceiveDocUpdate_out env userId message w H). simpl.
    unfold made. by rewrite drop_all.
Qed.

(** *** Leaving one room of a space keeps the others *)

Lemma onLeaveAwareness_run (message : LeaveSpaceAwarenessMessage.t)
    (w : Socket) :
  onLeaveAwareness message w =
    (Ok (JObj [("data", JObj [("clientId", JStr (id w));
                              ("success", JBool true)])]),
     snd (leave (LeaveSpaceAwarenessMessage.spaceType message)
            (LeaveSpaceAwarenessMessage.spaceId message)
            (Some (LeaveSpaceAwarenessMessage.docId message +:+ ":awareness"))
            w)).
Proof.
  unfold onLeaveAwareness, selectAdapter, bind, client_id, ret.
  destruct (decide (room (LeaveSpaceAwarenessMessage.spaceType message)
                      (LeaveSpaceAwarenessMessage.spaceId message)
                      (Some (LeaveSpaceAwarenessMessage.docId message
                             +:+ ":awareness")) ∈ rooms w)).
  - by rewrite leave_in.
  - by rewrite leave_out.
Qed.

(** X20: a leave-awareness request always replies and takes the
    connection out of no sync room: a connection that was in the sync
    room of a space still passes the guard of a push afterwards. *)
Theorem leave_awareness_keeps_sync (message : LeaveSpaceAwarenessMessage.t)
    this spaceId (w : Socket) :
  room this spaceId None ∈ rooms w ->
  let w' := snd (onLeaveAwareness message w) in
  fst (onLeaveAwareness message w) =
    Ok (JObj [("data", JObj [("clientId", JStr (id w));
                             ("success", JBool true)])])
  /\ room this spaceId None ∈ rooms w'
  /\ (forall docId updates editorId,
        made w' (snd (push env this spaceId docId updates editorId w')) =
          [PushDocUpdates this spaceId (storage_docId env this spaceId docId)
             updates editorId]).
Proof.
  intros Hin w'. subst w'. rewrite onLeaveAwareness_run. simpl.
  split; [done|].
  assert (Hin' : room this spaceId None
                   ∈ rooms (snd (leave (LeaveSpaceAwarenessMessage.spaceType message)
                                   (LeaveSpaceAwarenessMessage.spaceId message)
                                   (Some (LeaveSpaceAwarenessMessage.docId message
                                          +:+ ":awareness")) w))).
  { rewrite leave_rooms, elem_of_difference, elem_of_singleton.
    split; [done|]. apply sync_room_not_awareness. }
  split; [done|]. intros.
  rewrite push_in by done. simpl. by erewrite made_app.
Qed.

(** X21: a leave-space request takes the connection out of the sync room
    only: it stays in the awareness rooms it joined, those of the space
    left included, and an update-awareness for such a room still goes
    through. *)
Theorem leave_space_keeps_awareness (message : LeaveSpaceMessage.t)
    (update : UpdateAwarenessMessage.t) (w : Socket) :
  let awareness :=
    room (UpdateAwarenessMessage.spaceType update)
      (UpdateAwarenessMessage.spaceId update)
      (Some (UpdateAwarenessMessage.docId update +:+ ":awareness")) in
  awareness ∈ rooms w ->
  awareness ∈ rooms (snd (onLeaveSpace message w))
  /\ fst (onUpdateAwareness update (snd (onLeaveSpace message w))) =
       Ok (JObj []).
Proof.
  intros awareness Hin. rewrite onLeaveSpace_run. simpl.
  assert (Hin' : awareness
                   ∈ rooms (snd (leave (LeaveSpaceMessage.spaceType message)
                                   (LeaveSpaceMessage.spaceId message) None w))).
  { rewrite leave_rooms, elem_of_difference, elem_of_singleton.
    split; [done|]. intros Heq. symmetry in Heq.
    by apply sync_room_not_awareness in Heq. }
  split; [done|].
  unfold onUpdateAwareness, selectAdapter. fold awareness.
  unfold bind at 1. rewrite assertIn_in by done.
  unfold bind, client_to_emit, call, ret.
  by destruct (UpdateAwarenessMessage.spaceType update).
Qed.

End Sessions.

(** * The connection counter *)

Section Counter.

Lemma sum_Z_app (l k : list Z) : sum_Z (l ++ k) = (sum_Z l + sum_Z k)%Z.
Proof. induction l as [|x l IH]; simpl; lia. Qed.

Lemma count_of_cons (e x : Lifecycle) (events : list Lifecycle) :
  count_of e (x :: events) =
    ((if decide (x = e) then 1 else 0) + count_of e events)%Z.
Proof.
  unfold count_of. rewrite filter_cons.
  destruct (decide (x = e)); simpl length; lia.
Qed.

Lemma lifecycles_from (events : list Lifecycle) (g : Connections) :
  connectionCount (lifecycles events g) =
    (connectionCount g + count_of Connected events
     - count_of Disconnected events)%Z
  /\ sum_Z (gauge_connections (lifecycles events g)) =
       (sum_Z (gauge_connections g) + count_of Connected events
        - count_of Disconnected events)%Z
  /\ length (logged (lifecycles events g)) =
       (length (logged g) + length events)%nat.
Proof.
  revert g. induction events as [|e events IH]; intros g.
  - unfold lifecycles, count_of. simpl. repeat split; lia.
  - change (lifecycles (e :: events) g)
      with (lifecycles events (lifecycle g e)).
    destruct (IH (lifecycle g e)) as (Hc & Hg & Hl).
    rewrite Hc, Hg, Hl, !count_of_cons.
    destruct e; simpl; rewrite sum_Z_app, length_app; simpl;
      repeat split; lia.
Qed.

(** X15: after any sequence of connects and disconnects on a gateway
    that started with no connection, [connectionCount] is the number of
    connects less the number of disconnects (nothing keeps it from going
    below zero), it is the sum of the values given to the [connections]
    gauge, and one line was logged per event. *)
Theorem connection_count (events : list Lifecycle) :
  let g := lifecycles events no_connections in
  connectionCount g =
    (count_of Connected events - count_of Disconnected events)%Z
  /\ connectionCount g = sum_Z (gauge_connections g)
  /\ length (logged g) = length events.
Proof.
  intros g. subst g.
  destruct (lifecycles_from events no_connections) as (Hc & Hg & Hl).
  rewrite Hc, Hg, Hl. simpl. repeat split; lia.
Qed.

End Counter.

(** * More runs on the demo deployment *)

Section MoreRuns.

Import Demo.

(** X1, at concrete inputs: a leave of W1 on a connection that never
    joined, and on alice's joined connection. *)
Lemma leave_never_fails_witness :
  leave Workspace "W1" None fresh = (Ok tt, fresh)
  /\ fst (leave Workspace "W1" None joined) = Ok tt
  /\ ("c1" ∈ rooms (snd (leave Workspace "W1" None joined)) <->
      "c1" ∈ rooms joined).
Proof.
  destruct (leave_never_fails Workspace "W1" None fresh)
    as (_ & _ & _ & _ & Hnoop).
  destruct (leave_never_fails Workspace "W1" None joined)
    as (Hok & _ & Hframe & _).
  split; [|split; [exact Hok|]].
  - apply Hnoop. apply not_in_rooms. by vm_compute.
  - apply Hframe. discriminate.
Defined.

(** X2, at a concrete input: alice joins W1 and leaves it. *)
Lemma join_leave_round_trip_witness :
  rooms (snd (leave Workspace "W1" None joined)) = rooms fresh.
Proof.
  apply (join_leave_round_trip open_env Workspace "alice" "W1" None fresh).
  - apply not_in_rooms. by vm_compute.
  - by vm_compute.
Defined.

(** X4, at a concrete input: alice's join of W1 keeps the room of the
    connection's own id. *)
Lemma join_frame_witness :
  "c1" ∈ rooms (snd (join open_env Workspace "alice" "W1" None fresh)) <->
  "c1" ∈ rooms fresh.
Proof.
  apply (join_frame open_env Workspace "alice" "W1" None fresh "c1").
  discriminate.
Defined.

(** X5, at a concrete input. *)
Lemma sync_room_unique_witness :
  Workspace = Workspace /\ "W1" = "W1" /\ Sync = Sync.
Proof.
  apply (sync_room_unique Workspace "W1" Workspace "W1" Sync). reflexivity.
Defined.

(** X6, at a concrete input: alice joins W1 and pushes to D1. *)
Lemma join_then_push_witness :
  fst (push open_env Workspace "W1" "W1:D1" [[Byte.x01]] "alice" joined) =
    Ok 1%Z
  /\ made joined
       (snd (push open_env Workspace "W1" "W1:D1" [[Byte.x01]] "alice" joined))
     = [PushDocUpdates Workspace "W1" "D1" [[Byte.x01]] "alice"].
Proof.
  pose proof (join_then_push open_env Workspace "alice" "W1" "W1:D1"
                [[Byte.x01]] "alice" fresh ltac:(by vm_compute)) as H.
  cbv zeta in H. unfold joined, after. rewrite H. split; [by vm_compute|].
  erewrite made_app; [|reflexivity]. reflexivity.
Defined.

(** X7, at a concrete input: after alice joined the awareness room of D1
    only, her push to W1 is refused. *)
Lemma awareness_join_gives_no_sync_access_witness :
  fst (onJoinAwareness open_env "alice" join_awareness_D1 fresh) =
    Ok (JObj [("data", JObj [("clientId", JStr "c1");
                             ("success", JBool true)])])
  /\ push open_env Workspace "W1" "D1" [[Byte.x01]] "alice" in_awareness =
       (Err (NotInSpace "W1"), in_awareness).
Proof.
  split; [by vm_compute|].
  apply (awareness_join_gives_no_sync_access open_env "alice"
           join_awareness_D1 Workspace "W1" fresh).
  apply not_in_rooms. by vm_compute.
Defined.

(** X8, at concrete inputs: the workspace adapter stores a push to
    [W1:D1] under the guid D1 and is asked to delete [W1:D1]. *)
Lemma delete_doc_witness :
  onDeleteSpaceDoc delete_D1 joined =
    (Ok JUndefined,
     {| id := id joined; rooms := rooms joined;
        trace := trace joined ++ [DeleteDoc Workspace "W1" "W1:D1"] |})
  /\ onDeleteSpaceDoc delete_D1 fresh = (Err (NotInSpace "W1"), fresh).
Proof.
  destruct (delete_doc delete_D1 joined) as [Hin _].
  destruct (delete_doc delete_D1 fresh) as [_ Hout].
  split.
  - apply Hin. apply in_rooms. by vm_compute.
  - apply Hout. apply not_in_rooms. by vm_compute.
Defined.

(** X9, at concrete inputs: a storage that answers null, one that answers
    a mapping, and a connection that did not join. *)
Lemma load_doc_timestamps_witness :
  fst (onLoadDocTimestamps open_env timestamps_W1 joined) =
    Ok (JObj [("data", JObj [])])
  /\ fst (onLoadDocTimestamps stamped_env timestamps_W1 joined) =
       Ok (JObj [("data", JObj [("D1", JNum 1)])])
  /\ onLoadDocTimestamps open_env timestamps_W1 fresh =
       (Err (NotInSpace "W1"), fresh).
Proof.
  assert (Hjoined : room Workspace "W1" None ∈ rooms joined).
  { apply in_rooms. by vm_compute. }
  destruct (load_doc_timestamps open_env timestamps_W1 joined) as [Hin _].
  destruct (load_doc_timestamps stamped_env timestamps_W1 joined) as [Hin' _].
  destruct (load_doc_timestamps open_env timestamps_W1 fresh) as [_ Hout].
  destruct (Hin Hjoined) as (_ & Hnull & _).
  destruct (Hin' Hjoined) as (_ & _ & Hmap).
  split; [by apply Hnull|]. split.
  - by apply (Hmap [("D1", 1%Z)]).
  - apply Hout. apply not_in_rooms. by vm_compute.
Defined.

(** X10, at concrete inputs: alice in the awareness room of D1, and alice
    in the sync room of W1 only. *)
Lemma load_awareness_witness :
  made in_awareness (snd (onLoadAwareness load_awareness_D1 in_awareness)) =
    [ToRoomEmit "workspace:W1:D1:awareness" "space:collect-awareness"
       (JObj [("spaceType", JStr "workspace"); ("spaceId", JStr "W1");
              ("docId", JStr "D1")]);
     ToRoomEmit "workspace:W1:D1:awareness" "new-client-awareness-init"
       JUndefined]
  /\ onLoadAwareness load_awareness_D1 joined = (Err (NotInSpace "W1"), joined).
Proof.
  destruct (load_awareness load_awareness_D1 in_awareness) as [Hin _].
  destruct (load_awareness load_awareness_D1 joined) as [_ Hout].
  split.
  - rewrite Hin by (apply in_rooms; by vm_compute).
    erewrite made_app; [|reflexivity]. by vm_compute.
  - apply Hout. apply not_in_rooms. by vm_compute.
Defined.

(** X11, at concrete inputs. *)
Lemma update_awareness_witness :
  made in_awareness (snd (onUpdateAwareness update_awareness_D1 in_awareness)) =
    [ToRoomEmit "workspace:W1:D1:awareness" "space:broadcast-awareness-update"
       (JObj [("spaceType", JStr "workspace"); ("spaceId", JStr "W1");
              ("docId", JStr "D1"); ("awarenessUpdate", JStr "AQID")]);
     ToRoomEmit "workspace:W1:D1:awareness" "server-awareness-broadcast"
       (JObj [("workspaceId", JStr "W1"); ("awarenessUpdate", JStr "AQID")])]
  /\ onUpdateAwareness update_awareness_D1 joined =
       (Err (NotInSpace "W1"), joined).
Proof.
  destruct (update_awareness update_awareness_D1 in_awareness) as [Hin _].
  destruct (update_awareness update_awareness_D1 joined) as [_ Hout].
  split.
  - rewrite Hin by (apply in_rooms; by vm_compute).
    erewrite made_app; [|reflexivity]. by vm_compute.
  - apply Hout. apply not_in_rooms. by vm_compute.
Defined.

(** X13, at concrete inputs: the strict deployment runs 0.19.0. *)
Lemma version_check_exact_witness :
  assertVersion strict_env (Some "0.19.0") fresh = (Ok tt, fresh)
  /\ fst (assertVersion strict_env None fresh) =
       Err (VersionRejected "unknown" "0.19.0")
  /\ fst (assertVersion strict_env (Some "") fresh) =
       Err (VersionRejected "unknown" "0.19.0").
Proof.
  destruct (version_check_exact strict_env (Some "0.19.0") fresh eq_refl)
    as (Hsame & _).
  destruct (version_check_exact strict_env None fresh eq_refl)
    as (_ & _ & Habsent).
  destruct (version_check_exact strict_env (Some "") fresh eq_refl)
    as (_ & _ & Hempty).
  split; [by apply Hsame|]. split.
  - apply Habsent; [reflexivity|discriminate].
  - apply Hempty; [reflexivity|discriminate].
Defined.

(** X14, at a concrete input: alice on the deprecated awareness surface
    of W1. *)
Lemma legacy_awareness_flow_witness :
  fst (handleHelpGatheringAwareness "W1" "AQID"
         (snd (handleClientHandshakeAwareness open_env "alice" "W1" None fresh)))
    = Ok (JObj [])
  /\ broadcasts "server-awareness-broadcast"
       (made
          (snd (handleClientHandshakeAwareness open_env "alice" "W1" None fresh))
          (snd (handleHelpGatheringAwareness "W1" "AQID"
                  (snd (handleClientHandshakeAwareness open_env "alice" "W1"
                          None fresh))))) =
     [("workspace:W1:W1:awareness",
       JObj [("workspaceId", JStr "W1"); ("awarenessUpdate", JStr "AQID")])].
Proof.
  destruct (legacy_awareness_flow open_env "alice" "W1" None "AQID"
              (JObj [("data", JObj [("clientId", JStr "c1");
                                    ("success", JBool true)])])
              fresh ltac:(by vm_compute)) as (Hcalls & Hreply & _).
  split; [exact Hreply|]. rewrite Hcalls. by vm_compute.
Defined.

(** X16, at concrete inputs: alice pushes [AQID] to [W1:D1]. *)
Lemma push_doc_update_broadcast_witness :
  broadcasts "space:broadcast-doc-update"
    (made joined
       (snd (onReceiveDocUpdate open_env "alice"
               {| PushDocUpdateMessage.spaceType := Workspace;
                  PushDocUpdateMessage.spaceId := "W1";
                  PushDocUpdateMessage.docId := "W1:D1";
                  PushDocUpdateMessage.update := "AQID" |} joined))) =
    [("workspace:W1:sync",
      JObj [("spaceType", JStr "workspace"); ("spaceId", JStr "W1");
            ("docId", JStr "W1:D1"); ("update", JStr "AQID");
            ("timestamp", JNum 1); ("editor", JStr "alice")])]
  /\ made fresh (snd (onReceiveDocUpdate open_env "alice" push_D1 fresh)) = [].
Proof.
  destruct (push_doc_update_broadcast open_env "alice"
              {| PushDocUpdateMessage.spaceType := Workspace;
                 PushDocUpdateMessage.spaceId := "W1";
                 PushDocUpdateMessage.docId := "W1:D1";
                 PushDocUpdateMessage.update := "AQID" |} joined) as [Hin _].
  destruct (push_doc_update_broadcast open_env "alice" push_D1 fresh)
    as [_ Hout].
  split.
  - destruct (Hin ltac:(apply in_rooms; by vm_compute)) as (_ & _ & Hb).
    rewrite Hb. by vm_compute.
  - apply Hout. apply not_in_rooms. by vm_compute.
Defined.

(** X18, at a concrete input: alice joined W1, her membership is revoked,
    she leaves and joins again. *)
Lemma rejoin_checks_access_witness :
  fst (join revoked_env Workspace "alice" "W1" None
         (snd (leave Workspace "W1" None joined))) =
    Err (SpaceAccessDenied "W1").
Proof.
  apply (rejoin_checks_access revoked_env "alice" "W1" None joined).
  reflexivity.
Defined.

(** X19, at concrete inputs: alice's join-space of W1 and bob's. *)
Lemma join_space_outcome_witness :
  JObj [("data", JObj [("clientId", JStr "c1"); ("success", JBool true)])] =
    JObj [("data", JObj [("clientId", JStr (id fresh));
                         ("success", JBool true)])]
  /\ rooms (snd (onJoinSpace open_env "bob" (join_W1 None) fresh)) = rooms fresh.
Proof.
  destruct (join_space_outcome open_env "alice" (join_W1 None) fresh)
    as [_ Hreply].
  destruct (join_space_outcome open_env "bob" (join_W1 None) fresh)
    as [Hrooms _].
  split.
  - apply Hreply. by vm_compute.
  - rewrite Hrooms.
    assert (Hdenied : fst (onJoinSpace open_env "bob" (join_W1 None) fresh)
                      = Err (SpaceAccessDenied "W1")) by (by vm_compute).
    by rewrite Hdenied.
Defined.

(** X20, at a concrete input: alice, in the sync room of W1, leaves an
    awareness room she never joined and pushes. *)
Lemma leave_awareness_keeps_sync_witness :
  room Workspace "W1" None
    ∈ rooms (snd (onLeaveAwareness
                    {| LeaveSpaceAwarenessMessage.spaceType := Workspace;
                       LeaveSpaceAwarenessMessage.spaceId := "W1";
                       LeaveSpaceAwarenessMessage.docId := "D1" |} joined)).
Proof.
  apply (leave_awareness_keeps_sync open_env
           {| LeaveSpaceAwarenessMessage.spaceType := Workspace;
              LeaveSpaceAwarenessMessage.spaceId := "W1";
              LeaveSpaceAwarenessMessage.docId := "D1" |}
           Workspace "W1" joined).
  apply in_rooms. by vm_compute.
Defined.

(** X21, at a concrete input: alice, in the awareness room of D1, leaves
    W1 and still updates the awareness of D1. *)
Lemma leave_space_keeps_awareness_witness :
  fst (onUpdateAwareness update_awareness_D1
         (snd (onLeaveSpace leave_W1 in_awareness))) = Ok (JObj []).
Proof.
  apply (leave_space_keeps_awareness leave_W1 update_awareness_D1 in_awareness).
  apply in_rooms. by vm_compute.
Defined.

End MoreRuns.
